(** * Event / RSVP backend

    A shallow embedding of [main.py] (the FastAPI handlers) and
    [schemas.py] (the pydantic models), over a functional model of the
    document store the handlers talk to.

    - Python [str] is [string]; a document (a Python [dict] whose values are
      text, [None] or an [ObjectId]) is a [gmap string value]; a collection
      is the list of its documents in insertion order.
    - Handlers run in a state-and-exception monad: the state is the global
      [db] handle ([None] when no store is configured), the exceptions are
      Python's.  [try ... except] is [try_except].
    - An [ObjectId] is a 96-bit number, written as 24 hexadecimal digits. *)

From Stdlib Require Import Ascii String NArith ZArith Lia.
From stdpp Require Import gmap strings list fin_maps.

Open Scope string_scope.

(** ** Values, documents, exceptions *)

Inductive value : Type :=
| VNull
| VStr (s : string)
| VOid (o : N).

#[global] Instance value_eq_dec : EqDecision value.
Proof. solve_decision. Defined.

(** The exceptions the handlers can meet.  [HTTPException] is FastAPI's;
    [TypeError] is what subscripting [None] raises; [KeyError] is a missing
    [dict] key; [InvalidId] is bson's; [ValidationError] is pydantic's, inside
    a handler; [RequestValidationError] is FastAPI's, for a request body
    that does not fit the declared model; [StoreUnavailable] and
    [StoreError] are faults reported by the store gateway and the driver. *)
Inductive exn : Type :=
| HTTPException (status_code : Z) (detail : string)
| TypeError
| KeyError (key : string)
| InvalidId (oid : string)
| ValidationError (model : string)
| RequestValidationError
| StoreUnavailable
| StoreError (text : string).

Inductive result (A : Type) : Type :=
| Return (a : A)
| Raise (e : exn).
Arguments Return {A} a.
Arguments Raise {A} e.

Definition result_bind {A B : Type} (r : result A) (f : A -> result B) : result B :=
  match r with
  | Return a => f a
  | Raise e => Raise e
  end.

(** [d.get(k)]: [None] when the key is absent. *)
Definition get (d : gmap string value) (k : string) : value :=
  default VNull (d !! k).

(** [d[k]]: [KeyError] when the key is absent. *)
Definition getitem (d : gmap string value) (k : string) : result value :=
  match d !! k with
  | Some v => Return v
  | None => Raise (KeyError k)
  end.

(** Truth value of [doc] in [if doc:] / [if not doc:], for what [find_one]
    returns: [None] and the empty [dict] are false. *)
Definition truthy (o : option (gmap string value)) : bool :=
  match o with
  | Some d => negb (bool_decide (d = ∅))
  | None => false
  end.

(** ** ObjectId: 12 bytes, printed as 24 hexadecimal digits *)

Definition hex_digit (n : N) : ascii :=
  ascii_of_N (if (n <? 10)%N then 48 + n else 87 + n)%N.

Definition hex_value (c : ascii) : option N :=
  let n := N_of_ascii c in
  if ((48 <=? n) && (n <=? 57))%N then Some (n - 48)%N
  else if ((97 <=? n) && (n <=? 102))%N then Some (n - 87)%N
  else if ((65 <=? n) && (n <=? 70))%N then Some (n - 55)%N
  else None.

Fixpoint hex_of (k : nat) (n : N) : string :=
  match k with
  | O => EmptyString
  | S k' => String (hex_digit ((n / 16 ^ N.of_nat k') mod 16)%N) (hex_of k' n)
  end.

Fixpoint hex_parse (acc : N) (s : string) : option N :=
  match s with
  | EmptyString => Some acc
  | String c s' =>
      match hex_value c with
      | Some v => hex_parse (acc * 16 + v)%N s'
      | None => None
      end
  end.

(** [str(oid)] *)
Definition ObjectId_str (o : N) : string := hex_of 24 o.

(** [ObjectId(s)] on text: 24 hexadecimal digits, or [InvalidId]. *)
Definition ObjectId (s : string) : result N :=
  if Nat.eqb (String.length s) 24 then
    match hex_parse 0 s with
    | Some o => Return o
    | None => Raise (InvalidId s)
    end
  else Raise (InvalidId s).

(** [str(v)] on the values a document holds. *)
Definition str (v : value) : string :=
  match v with
  | VNull => "None"
  | VStr s => s
  | VOid o => ObjectId_str o
  end.

(** ** The pydantic models *)

(** Field validators: [str] and [Optional[str]]. *)
Definition as_str (model : string) (v : value) : result string :=
  match v with
  | VStr s => Return s
  | _ => Raise (ValidationError model)
  end.

Definition as_optional_str (model : string) (v : value) : result (option string) :=
  match v with
  | VNull => Return None
  | VStr s => Return (Some s)
  | VOid _ => Raise (ValidationError model)
  end.

Definition of_optional (o : option string) : value :=
  match o with
  | Some s => VStr s
  | None => VNull
  end.

(** schemas.py, [class Event] *)
Module Event.
Record t : Type := mk {
  title : string;
  description : option string;
  date_iso : string;
  location : string;
  cover_image_url : option string
}.

(** [event.model_dump()] *)
Definition model_dump (e : t) : gmap string value :=
  <["title" := VStr (title e)]>
  (<["description" := of_optional (description e)]>
  (<["date_iso" := VStr (date_iso e)]>
  (<["location" := VStr (location e)]>
  (<["cover_image_url" := of_optional (cover_image_url e)]> ∅)))).
End Event.

(** main.py, [class EventOut(Event)] *)
Module EventOut.
Record t : Type := mk {
  id : string;
  title : string;
  description : option string;
  date_iso : string;
  location : string;
  cover_image_url : option string
}.

(** [EventOut(id=..., title=..., ...)]: every field is validated. *)
Definition init (id title description date_iso location cover_image_url : value)
  : result t :=
  result_bind (as_str "EventOut" id) (fun i =>
  result_bind (as_str "EventOut" title) (fun t =>
  result_bind (as_optional_str "EventOut" description) (fun d =>
  result_bind (as_str "EventOut" date_iso) (fun di =>
  result_bind (as_str "EventOut" location) (fun l =>
  result_bind (as_optional_str "EventOut" cover_image_url) (fun c =>
  Return (mk i t d di l c))))))).
End EventOut.

(** main.py, [class RsvpRequest]: [status] is declared [str]. *)
Module RsvpRequest.
Record t : Type := mk {
  status : string;
  user_id : string;
  user_name : option string
}.

(** Building the model from the JSON object of the request body. *)
Definition validate (body : gmap string value) : result t :=
  result_bind (as_str "RsvpRequest" (get body "status")) (fun s =>
  result_bind (as_str "RsvpRequest" (get body "user_id")) (fun u =>
  result_bind (as_optional_str "RsvpRequest" (get body "user_name")) (fun n =>
  Return (mk s u n)))).
End RsvpRequest.

(** schemas.py, [class Rsvp]: [status] is [Literal["going", "not_going"]]. *)
Module Rsvp.
Record t : Type := mk {
  event_id : string;
  user_id : string;
  status : string;
  user_name : option string
}.

Definition as_status (v : value) : result string :=
  match v with
  | VStr s =>
      if bool_decide (s = "going") || bool_decide (s = "not_going")
      then Return s else Raise (ValidationError "Rsvp")
  | _ => Raise (ValidationError "Rsvp")
  end.

Definition validate (body : gmap string value) : result t :=
  result_bind (as_str "Rsvp" (get body "event_id")) (fun e =>
  result_bind (as_str "Rsvp" (get body "user_id")) (fun u =>
  result_bind (as_status (get body "status")) (fun s =>
  result_bind (as_optional_str "Rsvp" (get body "user_name")) (fun n =>
  Return (mk e u s n))))).
End Rsvp.

(** main.py, [class RsvpOut] *)
Module RsvpOut.
Record t : Type := mk {
  id : string;
  event_id : string;
  user_id : string;
  status : string;
  user_name : option string
}.

Definition init (id event_id user_id status user_name : value) : result t :=
  result_bind (as_str "RsvpOut" id) (fun i =>
  result_bind (as_str "RsvpOut" event_id) (fun e =>
  result_bind (as_str "RsvpOut" user_id) (fun u =>
  result_bind (as_str "RsvpOut" status) (fun s =>
  result_bind (as_optional_str "RsvpOut" user_name) (fun n =>
  Return (mk i e u s n)))))).
End RsvpOut.

(** ** The document store, as the driver shows it *)

(** A query [{"k": v, ...}] matches a document whose fields have these
    values (a field that is absent reads as [None]). *)
Definition matches (q d : gmap string value) : bool :=
  bool_decide (map_Forall (fun k v => get d k = v) q).

Module Coll.
(** [find_one]: the first matching document, in insertion order. *)
Definition find_one (q : gmap string value) (c : list (gmap string value))
  : option (gmap string value) :=
  List.find (matches q) c.

(** [update_one(q, {"$set": upd})]: the first matching document gets the
    fields of [upd]; its other fields stay. *)
Fixpoint update_one (q upd : gmap string value) (c : list (gmap string value))
  : list (gmap string value) :=
  match c with
  | [] => []
  | d :: c' =>
      if matches q d then (upd ∪ d) :: c' else d :: update_one q upd c'
  end.

(** [count_documents] *)
Fixpoint count_documents (q : gmap string value) (c : list (gmap string value))
  : nat :=
  match c with
  | [] => 0
  | d :: c' =>
      if matches q d then S (count_documents q c') else count_documents q c'
  end.
End Coll.

Record Database : Type := mkDatabase {
  (** [db.name], when the handle has that attribute *)
  db_name : option string;
  (** what [db.list_collection_names()] answers on this handle *)
  db_list_collection_names : result (list string);
  (** the documents of each collection *)
  db_collections : gmap string (list (gmap string value));
  (** the next identifier the store hands out *)
  db_next_oid : N
}.

Definition collection (d : Database) (name : string) : list (gmap string value) :=
  default [] (db_collections d !! name).

Definition set_collection (d : Database) (name : string)
    (c : list (gmap string value)) : Database :=
  {| db_name := db_name d;
     db_list_collection_names := db_list_collection_names d;
     db_collections := <[name := c]> (db_collections d);
     db_next_oid := db_next_oid d |}.

(** ** State and exceptions *)

Definition M (S A : Type) : Type := S -> result A * S.

Definition ret {S A : Type} (a : A) : M S A := fun s => (Return a, s).

Definition raise {S A : Type} (e : exn) : M S A := fun s => (Raise e, s).

Definition lift {S A : Type} (r : result A) : M S A := fun s => (r, s).

Definition bind {S A B : Type} (m : M S A) (f : A -> M S B) : M S B :=
  fun s =>
    match m s with
    | (Return a, s') => f a s'
    | (Raise e, s') => (Raise e, s')
    end.

(** [try: m except Exception as e: h e] *)
Definition try_except {S A : Type} (m : M S A) (h : exn -> M S A) : M S A :=
  fun s =>
    match m s with
    | (Return a, s') => (Return a, s')
    | (Raise e, s') => h e s'
    end.

Definition modify {S : Type} (f : S -> S) : M S unit := fun s => (Return tt, f s).

Declare Scope m_scope.
Delimit Scope m_scope with m.
Notation "x <- m ;; k" := (bind m (fun x => k))
  (at level 100, m at next level, right associativity) : m_scope.
Notation "m ;; k" := (bind m (fun _ => k))
  (at level 100, right associativity) : m_scope.

(** The handlers' state is the module-level [db]. *)
Abbreviation DB := (M (option Database)).

(** [db[name]]: subscripting [None] raises [TypeError]. *)
Definition db_getitem (name : string) : DB string :=
  fun db =>
    match db with
    | Some _ => (Return name, db)
    | None => (Raise TypeError, db)
    end.

Definition find_one (coll : string) (q : gmap string value)
  : DB (option (gmap string value)) :=
  fun db =>
    match db with
    | Some d => (Return (Coll.find_one q (collection d coll)), db)
    | None => (Raise TypeError, db)
    end.

Definition update_one (coll : string) (q upd : gmap string value) : DB unit :=
  fun db =>
    match db with
    | Some d =>
        (Return tt, Some (set_collection d coll (Coll.update_one q upd (collection d coll))))
    | None => (Raise TypeError, db)
    end.

Definition count_documents (coll : string) (q : gmap string value) : DB nat :=
  fun db =>
    match db with
    | Some d => (Return (Coll.count_documents q (collection d coll)), db)
    | None => (Raise TypeError, db)
    end.

(** Modelled from the spec: [create_document] of database.py, which is not
    among the sources.  The gateway's contract is "insert one document,
    return its generated id": the record is stored in the named collection
    under an identifier the store has not handed out before
    ([insert_one]), and that identifier is returned as text; without a
    store the fault goes to the caller.  A first insertion creates the
    collection: an enumeration that did not show its name shows it from
    then on ([listed_with]); an enumeration that fails keeps failing. *)
Definition listed_with (name : string) (listing : result (list string))
  : result (list string) :=
  match listing with
  | Return names =>
      if bool_decide (name ∈ names) then Return names else Return (names ++ [name])%list
  | Raise e => Raise e
  end.

Definition insert_one (d : Database) (name : string) (record : gmap string value)
  : Database :=
  {| db_name := db_name d;
     db_list_collection_names := listed_with name (db_list_collection_names d);
     db_collections :=
       <[name := (collection d name ++ [<["_id" := VOid (db_next_oid d)]> record])%list]>
         (db_collections d);
     db_next_oid := N.succ (db_next_oid d) |}.

Definition create_document (collection_name : string) (record : gmap string value)
  : DB string :=
  fun db =>
    match db with
    | Some d =>
        (Return (ObjectId_str (db_next_oid d)), Some (insert_one d collection_name record))
    | None => (Raise StoreUnavailable, db)
    end.

(** ** The responses *)

(** [{"going": ..., "not_going": ...}] *)
Module Counts.
Record t : Type := mk {
  going : nat;
  not_going : nat
}.
End Counts.

(** The [response] dict of [test_database]; its keys never change. *)
Module Diagnostics.
Record t : Type := mk {
  backend : string;
  database : string;
  database_url : option string;
  database_name : option string;
  connection_status : string;
  collections : list string
}.

Definition set_database (v : string) (r : t) : t :=
  mk (backend r) v (database_url r) (database_name r) (connection_status r) (collections r).
Definition set_database_url (v : option string) (r : t) : t :=
  mk (backend r) (database r) v (database_name r) (connection_status r) (collections r).
Definition set_database_name (v : option string) (r : t) : t :=
  mk (backend r) (database r) (database_url r) v (connection_status r) (collections r).
Definition set_connection_status (v : string) (r : t) : t :=
  mk (backend r) (database r) (database_url r) (database_name r) v (collections r).
Definition set_collections (v : list string) (r : t) : t :=
  mk (backend r) (database r) (database_url r) (database_name r) (connection_status r) v.
End Diagnostics.

(** Truth value of [os.getenv(name)]: set, and not the empty text. *)
Definition env_truthy (v : option string) : bool :=
  match v with
  | Some s => negb (bool_decide (s = ""))
  | None => false
  end.

(** The status line FastAPI answers with: 200 for a returned value, the
    code of an [HTTPException], 422 for a body that failed validation, and
    500 for any exception that leaves the handler. *)
Definition status_of {A : Type} (r : result A) : Z :=
  match r with
  | Return _ => 200
  | Raise (HTTPException c _) => c
  | Raise RequestValidationError => 422
  | Raise _ => 500
  end.

(** The query and the [data] dict of the RSVP handlers. *)
Definition rsvp_key (event_id user_id : string) : gmap string value :=
  <["event_id" := VStr event_id]> (<["user_id" := VStr user_id]> ∅).

Definition rsvp_data (event_id : string) (body : RsvpRequest.t) : gmap string value :=
  <["event_id" := VStr event_id]>
  (<["user_id" := VStr (RsvpRequest.user_id body)]>
  (<["status" := VStr (RsvpRequest.status body)]>
  (<["user_name" := of_optional (RsvpRequest.user_name body)]> ∅))).

Definition counts_query (event_id status : string) : gmap string value :=
  <["event_id" := VStr event_id]> (<["status" := VStr status]> ∅).

(** One rendering of [str(e)], for running the handlers on examples. *)
Definition exn_text (e : exn) : string :=
  match e with
  | HTTPException _ d => d
  | TypeError => "TypeError"
  | KeyError k => k
  | InvalidId s => s
  | ValidationError m => m
  | RequestValidationError => "RequestValidationError"
  | StoreUnavailable => "StoreUnavailable"
  | StoreError t => t
  end.

(** ** main.py *)

Section Handlers.

(** [str(e)] on an exception: the text belongs to the library that
    raised it, and nothing below depends on it. *)
Variable str_exn : exn -> string.

Local Open Scope m_scope.

Definition test_database (db : option Database) (getenv : string -> option string)
  : result Diagnostics.t :=
  let response :=
    Diagnostics.mk "✅ Running" "❌ Not Available" None None "Not Connected" [] in
  fst ((try_except
          (match db with
           | Some d =>
               modify (Diagnostics.set_database "✅ Available");;
               modify (Diagnostics.set_database_url (Some "✅ Configured"));;
               modify (Diagnostics.set_database_name
                         (Some (match db_name d with
                                | Some n => n
                                | None => "✅ Connected"
                                end)));;
               modify (Diagnostics.set_connection_status "Connected");;
               try_except
                 (collections <- lift (db_list_collection_names d);;
                  modify (Diagnostics.set_collections (take 10 collections));;
                  modify (Diagnostics.set_database "✅ Connected & Working"))
                 (fun e =>
                    modify (Diagnostics.set_database
                              ("⚠️  Connected but Error: "
                                 ++ String.substring 0 50 (str_exn e))))
           | None =>
               modify (Diagnostics.set_database "⚠️  Available but not initialized")
           end)
          (fun e =>
             modify (Diagnostics.set_database
                       ("❌ Error: " ++ String.substring 0 50 (str_exn e))));;
        modify (Diagnostics.set_database_url
                  (Some (if env_truthy (getenv "DATABASE_URL")
                         then "✅ Set" else "❌ Not Set")));;
        modify (Diagnostics.set_database_name
                  (Some (if env_truthy (getenv "DATABASE_NAME")
                         then "✅ Set" else "❌ Not Set")));;
        (fun response => (Return response, response))) response).

Definition _doc_to_event_out (doc : gmap string value) : result EventOut.t :=
  EventOut.init (VStr (str (get doc "_id")))
                (get doc "title")
                (get doc "description")
                (get doc "date_iso")
                (get doc "location")
                (get doc "cover_image_url").

Definition create_event (event : Event.t) : DB (gmap string value) :=
  try_except
    (event_id <- create_document "event" (Event.model_dump event);;
     ret (<["id" := VStr event_id]> ∅))
    (fun e => raise (HTTPException 500 (str_exn e))).

Definition get_event (event_id : string) : DB EventOut.t :=
  try_except
    (coll <- db_getitem "event";;
     oid <- lift (ObjectId event_id);;
     doc <- find_one coll (<["_id" := VOid oid]> ∅);;
     if negb (truthy doc)
     then raise (HTTPException 404 "Event not found")
     else lift (_doc_to_event_out (default ∅ doc)))
    (fun e => raise (HTTPException 400 (str_exn e))).

Definition set_rsvp (event_id : string) (body : RsvpRequest.t) : DB RsvpOut.t :=
  try_except
    (coll <- db_getitem "rsvp";;
     existing <- find_one coll (rsvp_key event_id (RsvpRequest.user_id body));;
     let data := rsvp_data event_id body in
     rsvp_id <-
       (if truthy existing
        then
          oid <- lift (getitem (default ∅ existing) "_id");;
          update_one coll (<["_id" := oid]> ∅) data;;
          oid' <- lift (getitem (default ∅ existing) "_id");;
          ret (str oid')
        else create_document "rsvp" data);;
     lift (RsvpOut.init (VStr rsvp_id)
                        (get data "event_id")
                        (get data "user_id")
                        (get data "status")
                        (get data "user_name")))
    (fun e => raise (HTTPException 500 (str_exn e))).

Definition get_my_rsvp (event_id user_id : string) : DB RsvpOut.t :=
  try_except
    (coll <- db_getitem "rsvp";;
     doc <- find_one coll (rsvp_key event_id user_id);;
     if negb (truthy doc)
     then raise (HTTPException 404 "No RSVP yet")
     else
       let doc := default ∅ doc in
       lift (RsvpOut.init (VStr (str (get doc "_id")))
                          (get doc "event_id")
                          (get doc "user_id")
                          (get doc "status")
                          (get doc "user_name")))
    (fun e =>
       match e with
       | HTTPException _ _ => raise e
       | _ => raise (HTTPException 500 (str_exn e))
       end).

Definition get_counts (event_id : string) : DB Counts.t :=
  try_except
    (coll <- db_getitem "rsvp";;
     going <- count_documents coll (counts_query event_id "going");;
     coll' <- db_getitem "rsvp";;
     not_going <- count_documents coll' (counts_query event_id "not_going");;
     ret (Counts.mk going not_going))
    (fun e => raise (HTTPException 500 (str_exn e))).

(** [POST /api/events/{event_id}/rsvp] as FastAPI serves it: the JSON
    body is built into the declared model, [RsvpRequest], and the handler
    runs only when that succeeds. *)
Definition post_rsvp (event_id : string) (json : gmap string value) : DB RsvpOut.t :=
  match RsvpRequest.validate json with
  | Return body => set_rsvp event_id body
  | Raise _ => raise RequestValidationError
  end.

(** The requests of [bodies] served one after the other on one event. *)
Fixpoint submit_all (event_id : string) (bodies : list RsvpRequest.t)
    (db : option Database) : option Database :=
  match bodies with
  | [] => db
  | body :: bodies' => submit_all event_id bodies' (snd (set_rsvp event_id body db))
  end.

End Handlers.

(** ** Invariants of the store *)

(** Every document carries an identifier the store has handed out. *)
Definition has_oid_below (next : N) (d : gmap string value) : bool :=
  match d !! "_id" with
  | Some (VOid o) => (o <? next)%N
  | _ => false
  end.

Definition ids_below (next : N) (c : list (gmap string value)) : bool :=
  forallb (has_oid_below next) c.

(** No two documents of a collection share an identifier. *)
Definition ids_distinct (c : list (gmap string value)) : bool :=
  bool_decide (NoDup ((fun d => get d "_id") <$> c)).

Definition coll_ok (next : N) (c : list (gmap string value)) : bool :=
  ids_below next c && ids_distinct c.

(** At most one RSVP document per [(event_id, user_id)]. *)
Definition unique_rsvp (c : list (gmap string value)) : Prop :=
  forall e u : string, Coll.count_documents (rsvp_key e u) c <= 1.

Definition is_str (v : value) : bool :=
  match v with VStr _ => true | _ => false end.

Definition is_optional_str (v : value) : bool :=
  match v with VOid _ => false | _ => true end.

(** The shape of the documents [set_rsvp] writes. *)
Definition rsvp_doc_ok (d : gmap string value) : bool :=
  is_str (get d "event_id") && is_str (get d "user_id") &&
  is_str (get d "status") && is_optional_str (get d "user_name").

(** The shape of the documents [create_event] writes. *)
Definition event_doc_ok (d : gmap string value) : bool :=
  is_str (get d "title") && is_optional_str (get d "description") &&
  is_str (get d "date_iso") && is_str (get d "location") &&
  is_optional_str (get d "cover_image_url").

(** [Optional[str]] read back from a document. *)
Definition to_optional (v : value) : option string :=
  match v with VStr s => Some s | _ => None end.

(** A stored document holds what the response [r] shows. *)
Definition stored_as (r : RsvpOut.t) (doc : gmap string value) : Prop :=
  str (get doc "_id") = RsvpOut.id r /\
  get doc "event_id" = VStr (RsvpOut.event_id r) /\
  get doc "user_id" = VStr (RsvpOut.user_id r) /\
  get doc "status" = VStr (RsvpOut.status r) /\
  get doc "user_name" = of_optional (RsvpOut.user_name r).

Definition count_status (s : string) (bodies : list RsvpRequest.t) : nat :=
  length (filter (fun b => RsvpRequest.status b = s) bodies).

(** ** Sample stores and requests *)

(** A store with a handle and no document yet. *)
Definition store_empty : Database :=
  mkDatabase (Some "events") (Return []) ∅ 0.

Definition going_u1 : RsvpRequest.t := RsvpRequest.mk "going" "u1" (Some "Ann").
Definition not_going_u1 : RsvpRequest.t := RsvpRequest.mk "not_going" "u1" None.

(** The store after [going_u1] was submitted on event "e1". *)
Definition rsvp_doc_u1 : gmap string value :=
  <["_id" := VOid 0]> (rsvp_data "e1" going_u1).

Definition store_one_rsvp : Database :=
  mkDatabase (Some "events") (Return ["rsvp"]) (<["rsvp" := [rsvp_doc_u1]]> ∅) 1.

Definition five_bodies : list RsvpRequest.t :=
  [ RsvpRequest.mk "going" "u1" (Some "Ann");
    RsvpRequest.mk "not_going" "u2" None;
    RsvpRequest.mk "going" "u3" None;
    RsvpRequest.mk "going" "u4" (Some "Dan");
    RsvpRequest.mk "not_going" "u5" None ].

Definition launch : Event.t :=
  Event.mk "Launch" None "2025-01-01T10:00:00" "Hall" (Some "http://img").

Definition launch_doc : gmap string value :=
  <["_id" := VOid 0]> (Event.model_dump launch).

Definition store_one_event : Database :=
  mkDatabase (Some "events") (Return ["event"]) (<["event" := [launch_doc]]> ∅) 1.

(** A handle whose enumeration answers twelve names, and one whose
    enumeration fails. *)
Definition store_twelve : Database :=
  mkDatabase (Some "events")
             (Return ["c01"; "c02"; "c03"; "c04"; "c05"; "c06";
                      "c07"; "c08"; "c09"; "c10"; "c11"; "c12"])
             ∅ 0.

Definition store_failing : Database :=
  mkDatabase None (Raise (StoreError "not authorized")) ∅ 0.

Definition env_url_only (name : string) : option string :=
  if bool_decide (name = "DATABASE_URL") then Some "mongodb://localhost" else None.

(** A request body whose status is neither "going" nor "not_going". *)
Definition maybe_json : gmap string value :=
  <["status" := VStr "maybe"]> (<["user_id" := VStr "u1"]> ∅).

(** ** Sequences of writing calls *)

(** A call of one of the two handlers that write to the store. *)
Inductive call : Type :=
| CreateEvent (event : Event.t)
| SetRsvp (event_id : string) (body : RsvpRequest.t).

Section Runs.

Variable str_exn : exn -> string.

(** The store after one call, whatever the call answered. *)
Definition serve (c : call) (db : option Database) : option Database :=
  match c with
  | CreateEvent event => snd (create_event str_exn event db)
  | SetRsvp event_id body => snd (set_rsvp str_exn event_id body db)
  end.

Fixpoint serve_all (calls : list call) (db : option Database) : option Database :=
  match calls with
  | [] => db
  | c :: calls' => serve_all calls' (serve c db)
  end.

End Runs.

(** What the handlers rely on in a store: identifiers handed out by the
    store and distinct in each collection, one RSVP per pair, and documents
    of the shapes the handlers write. *)
Definition store_ok (d : Database) : Prop :=
  coll_ok (db_next_oid d) (collection d "rsvp") = true /\
  unique_rsvp (collection d "rsvp") /\
  coll_ok (db_next_oid d) (collection d "event") = true /\
  forallb rsvp_doc_ok (collection d "rsvp") = true /\
  forallb event_doc_ok (collection d "event") = true.

(** An event document without the required [title] and [date_iso]. *)
Definition untitled_doc : gmap string value :=
  <["_id" := VOid 0]> (<["location" := VStr "Hall"]> ∅).

Definition store_untitled : Database :=
  mkDatabase (Some "events") (Return ["event"]) (<["event" := [untitled_doc]]> ∅) 1.

Definition going_u2 : RsvpRequest.t := RsvpRequest.mk "going" "u2" None.

(** A body that fits the schema [Rsvp]. *)
Definition rsvp_json : gmap string value :=
  <["event_id" := VStr "e1"]>
  (<["user_id" := VStr "u1"]>
  (<["status" := VStr "not_going"]> ∅)).

Definition sample_calls : list call :=
  [ CreateEvent launch;
    SetRsvp "e1" going_u1;
    SetRsvp "e1" going_u2;
    SetRsvp "e1" not_going_u1 ].

(** The documents of a pair, told by their own [event_id] and [user_id]
    fields. *)
Definition pair_docs (e u : string) (c : list (gmap string value))
  : list (gmap string value) :=
  filter (fun doc : gmap string value =>
            doc !! "event_id" = Some (VStr e) /\ doc !! "user_id" = Some (VStr u)) c.

(** At most one document per pair, by the documents' fields. *)
Definition one_per_pair (c : list (gmap string value)) : Prop :=
  forall e u : string, length (pair_docs e u c) <= 1.

(** An environment where [DATABASE_URL] is set to the empty text. *)
Definition env_empty_url (name : string) : option string :=
  if bool_decide (name = "DATABASE_URL") then Some "" else None.

(** * Properties *)

Open Scope list_scope.

(** ** ObjectId text round trip *)

Lemma hex_value_digit (n : N) :
  (n < 16)%N -> hex_value (hex_digit n) = Some n.
Proof.
  intros Hn.
  assert (Hcases : In n (map N.of_nat (seq 0 16))).
  { apply in_map_iff. exists (N.to_nat n). split; [lia|]. apply in_seq. lia. }
  simpl in Hcases.
  repeat (destruct Hcases as [<-|Hcases]; [reflexivity|]).
  destruct Hcases.
Qed.

Lemma length_hex_of (k : nat) (n : N) : String.length (hex_of k n) = k.
Proof. induction k as [|k IH]; simpl; [reflexivity|]. now rewrite IH. Qed.

Lemma hex_parse_of (k : nat) (n acc : N) :
  hex_parse acc (hex_of k n) = Some (acc * 16 ^ N.of_nat k + n mod 16 ^ N.of_nat k)%N.
Proof.
  revert acc. induction k as [|k IH]; intros acc.
  - simpl. rewrite N.mod_1_r. f_equal. lia.
  - cbn [hex_of hex_parse].
    rewrite hex_value_digit by (apply N.mod_upper_bound; lia).
    rewrite IH. f_equal.
    rewrite Nat2N.inj_succ, N.pow_succ_r'.
    set (p := (16 ^ N.of_nat k)%N).
    assert (Hp : (p <> 0)%N) by (apply N.pow_nonzero; lia).
    rewrite (N.mul_comm 16 p).
    rewrite (N.Div0.mod_mul_r n p 16).
    lia.
Qed.

Lemma ObjectId_str_roundtrip (o : N) :
  (o < 2 ^ 96)%N -> ObjectId (ObjectId_str o) = Return o.
Proof.
  intros Ho. unfold ObjectId, ObjectId_str.
  rewrite length_hex_of. cbn [Nat.eqb].
  rewrite hex_parse_of.
  change (16 ^ N.of_nat 24)%N with (2 ^ 96)%N.
  rewrite N.mod_small by exact Ho.
  now rewrite N.mul_0_l, N.add_0_l.
Qed.

(** ** Documents and queries *)

Lemma get_empty (k : string) : get ∅ k = VNull.
Proof. unfold get. now rewrite lookup_empty. Qed.

Lemma get_lookup (d : gmap string value) (k : string) (v : value) :
  v <> VNull -> get d k = v <-> d !! k = Some v.
Proof.
  intros Hv. unfold get. destruct (d !! k) as [w|]; simpl; split; congruence.
Qed.

Lemma matches_spec (q d : gmap string value) :
  matches q d = true <-> forall k v, q !! k = Some v -> get d k = v.
Proof. unfold matches. rewrite bool_decide_eq_true. reflexivity. Qed.

Lemma matches_rsvp_key (e u : string) (d : gmap string value) :
  matches (rsvp_key e u) d = true <->
  get d "event_id" = VStr e /\ get d "user_id" = VStr u.
Proof.
  unfold matches, rsvp_key. rewrite bool_decide_eq_true.
  rewrite !map_Forall_insert by reflexivity.
  split; [intros (? & ? & _); auto | intros [? ?]; repeat split; auto].
  apply map_Forall_empty.
Qed.

Lemma matches_counts_query (e s : string) (d : gmap string value) :
  matches (counts_query e s) d = true <->
  get d "event_id" = VStr e /\ get d "status" = VStr s.
Proof.
  unfold matches, counts_query. rewrite bool_decide_eq_true.
  rewrite !map_Forall_insert by reflexivity.
  split; [intros (? & ? & _); auto | intros [? ?]; repeat split; auto].
  apply map_Forall_empty.
Qed.

Lemma matches_id (v : value) (d : gmap string value) :
  matches (<["_id" := v]> ∅) d = true <-> get d "_id" = v.
Proof.
  unfold matches. rewrite bool_decide_eq_true.
  rewrite map_Forall_insert by reflexivity.
  split; [intros [? _]; auto | intros ?; split; auto].
  apply map_Forall_empty.
Qed.

(** A document that answers a query on a field that is not [None] is not
    the empty [dict]: [if doc:] sees it. *)
Lemma truthy_get (d : gmap string value) (k : string) :
  get d k <> VNull -> truthy (Some d) = true.
Proof.
  intros Hk. unfold truthy. apply negb_true_iff, bool_decide_eq_false.
  intros ->. now rewrite get_empty in Hk.
Qed.

Lemma find_one_some (q : gmap string value) (c : list (gmap string value))
    (d : gmap string value) :
  Coll.find_one q c = Some d -> In d c /\ matches q d = true.
Proof. apply find_some. Qed.

Lemma find_one_none (q : gmap string value) (c : list (gmap string value)) :
  Coll.find_one q c = None <-> Coll.count_documents q c = 0.
Proof.
  induction c as [|d c IH]; simpl; [tauto|].
  destruct (matches q d); [split; discriminate | exact IH].
Qed.

Lemma find_one_split (q : gmap string value) (c : list (gmap string value))
    (d : gmap string value) :
  Coll.find_one q c = Some d ->
  exists l1 l2, c = (l1 ++ d :: l2)%list /\ matches q d = true /\
                Forall (fun x => matches q x = false) l1.
Proof.
  induction c as [|x c IH]; simpl; [discriminate|].
  destruct (matches q x) eqn:Hx.
  - intros [= ->]. exists [], c. auto.
  - intros H. destruct (IH H) as (l1 & l2 & -> & Hd & Hl1).
    exists (x :: l1), l2. auto.
Qed.

Lemma count_documents_app (q : gmap string value) (c1 c2 : list (gmap string value)) :
  Coll.count_documents q (c1 ++ c2) =
  Coll.count_documents q c1 + Coll.count_documents q c2.
Proof.
  induction c1 as [|d c1 IH]; simpl; [reflexivity|].
  destruct (matches q d); simpl; now rewrite IH.
Qed.

(** The driver's count is the number of documents with these fields. *)
Lemma count_documents_filter (e s : string) (c : list (gmap string value)) :
  Coll.count_documents (counts_query e s) c =
  length (filter (fun d : gmap string value =>
                    d !! "event_id" = Some (VStr e) /\ d !! "status" = Some (VStr s)) c).
Proof.
  induction c as [|d c IH]; simpl; [reflexivity|].
  rewrite filter_cons.
  destruct (matches (counts_query e s) d) eqn:Hm.
  - apply matches_counts_query in Hm.
    rewrite !get_lookup in Hm by discriminate.
    rewrite decide_True by exact Hm. simpl. now rewrite IH.
  - rewrite decide_False; [exact IH|].
    intros Hd. rewrite <- !(get_lookup d) in Hd by discriminate.
    apply matches_counts_query in Hd. congruence.
Qed.

(** ** The handlers, case by case *)

Section Properties.

Variable str_exn : exn -> string.

Lemma collection_set_collection (d : Database) (name : string)
    (c : list (gmap string value)) :
  collection (set_collection d name c) name = c.
Proof. unfold collection, set_collection. simpl. now rewrite lookup_insert_eq. Qed.

Lemma collection_insert_one (d : Database) (name : string) (record : gmap string value) :
  collection (insert_one d name record) name =
  collection d name ++ [<["_id" := VOid (db_next_oid d)]> record].
Proof. unfold collection at 1, insert_one. simpl. now rewrite lookup_insert_eq. Qed.

Lemma rsvp_data_get (e : string) (b : RsvpRequest.t) :
  get (rsvp_data e b) "event_id" = VStr e /\
  get (rsvp_data e b) "user_id" = VStr (RsvpRequest.user_id b) /\
  get (rsvp_data e b) "status" = VStr (RsvpRequest.status b) /\
  get (rsvp_data e b) "user_name" = of_optional (RsvpRequest.user_name b).
Proof. repeat split; reflexivity. Qed.

Lemma RsvpOut_init_data (i e : string) (b : RsvpRequest.t) :
  RsvpOut.init (VStr i) (get (rsvp_data e b) "event_id")
               (get (rsvp_data e b) "user_id") (get (rsvp_data e b) "status")
               (get (rsvp_data e b) "user_name")
  = Return (RsvpOut.mk i e (RsvpRequest.user_id b) (RsvpRequest.status b)
                       (RsvpRequest.user_name b)).
Proof.
  destruct (rsvp_data_get e b) as (-> & -> & -> & ->).
  destruct b as [s u [n|]]; reflexivity.
Qed.

Lemma truthy_find_rsvp (e u : string) (c : list (gmap string value))
    (d : gmap string value) :
  Coll.find_one (rsvp_key e u) c = Some d -> truthy (Some d) = true.
Proof.
  intros H. apply find_one_some in H as [_ H].
  apply matches_rsvp_key in H as [H _].
  apply (truthy_get d "event_id"). congruence.
Qed.

(** What [set_rsvp] does on a store, by the outcome of its lookup. *)
Lemma set_rsvp_found (d : Database) (e : string) (b : RsvpRequest.t)
    (ex : gmap string value) (oid : value) :
  Coll.find_one (rsvp_key e (RsvpRequest.user_id b)) (collection d "rsvp") = Some ex ->
  ex !! "_id" = Some oid ->
  set_rsvp str_exn e b (Some d) =
  (Return (RsvpOut.mk (str oid) e (RsvpRequest.user_id b) (RsvpRequest.status b)
                      (RsvpRequest.user_name b)),
   Some (set_collection d "rsvp"
           (Coll.update_one (<["_id" := oid]> ∅) (rsvp_data e b) (collection d "rsvp")))).
Proof.
  intros Hf Hid.
  unfold set_rsvp, try_except, bind, db_getitem, find_one, update_one, lift, ret.
  rewrite Hf, (truthy_find_rsvp _ _ _ _ Hf). cbn [default from_option id].
  unfold getitem. rewrite Hid. cbv beta iota.
  now rewrite RsvpOut_init_data.
Qed.

Lemma set_rsvp_found_no_id (d : Database) (e : string) (b : RsvpRequest.t)
    (ex : gmap string value) :
  Coll.find_one (rsvp_key e (RsvpRequest.user_id b)) (collection d "rsvp") = Some ex ->
  ex !! "_id" = None ->
  set_rsvp str_exn e b (Some d) =
  (Raise (HTTPException 500 (str_exn (KeyError "_id"))), Some d).
Proof.
  intros Hf Hid.
  unfold set_rsvp, try_except, bind, db_getitem, find_one, update_one, lift, ret.
  rewrite Hf, (truthy_find_rsvp _ _ _ _ Hf). cbn [default from_option id].
  unfold getitem. rewrite Hid. reflexivity.
Qed.

Lemma set_rsvp_not_found (d : Database) (e : string) (b : RsvpRequest.t) :
  Coll.find_one (rsvp_key e (RsvpRequest.user_id b)) (collection d "rsvp") = None ->
  set_rsvp str_exn e b (Some d) =
  (Return (RsvpOut.mk (ObjectId_str (db_next_oid d)) e (RsvpRequest.user_id b)
                      (RsvpRequest.status b) (RsvpRequest.user_name b)),
   Some (insert_one d "rsvp" (rsvp_data e b))).
Proof.
  intros Hf.
  unfold set_rsvp, try_except, bind, db_getitem, find_one, create_document, lift, ret.
  rewrite Hf. cbn [truthy].
  now rewrite RsvpOut_init_data.
Qed.

Lemma set_rsvp_no_store (e : string) (b : RsvpRequest.t) :
  set_rsvp str_exn e b None = (Raise (HTTPException 500 (str_exn TypeError)), None).
Proof. reflexivity. Qed.

(** *** [$set] keeps the identifier and the fields it does not name *)

Lemma get_union_l (upd d : gmap string value) (k : string) (v : value) :
  upd !! k = Some v -> get (upd ∪ d) k = v.
Proof. intros H. unfold get. now rewrite (lookup_union_Some_l _ _ _ _ H). Qed.

Lemma get_union_r (upd d : gmap string value) (k : string) :
  upd !! k = None -> get (upd ∪ d) k = get d k.
Proof. intros H. unfold get. now rewrite lookup_union_r. Qed.

Lemma rsvp_data_union_id (e : string) (b : RsvpRequest.t) (d : gmap string value) :
  (rsvp_data e b ∪ d) !! "_id" = d !! "_id".
Proof. now apply lookup_union_r. Qed.

Lemma rsvp_data_union_key (e : string) (b : RsvpRequest.t) (d : gmap string value)
    (e' u' : string) :
  matches (rsvp_key e (RsvpRequest.user_id b)) d = true ->
  matches (rsvp_key e' u') (rsvp_data e b ∪ d) = matches (rsvp_key e' u') d.
Proof.
  intros Hd. apply matches_rsvp_key in Hd as [He Hu].
  apply eq_true_iff_eq. rewrite !matches_rsvp_key.
  rewrite (get_union_l (rsvp_data e b) d "event_id" (VStr e)) by reflexivity.
  rewrite (get_union_l (rsvp_data e b) d "user_id" (VStr (RsvpRequest.user_id b)))
    by reflexivity.
  now rewrite He, Hu.
Qed.

(** *** [update_one] by identifier, when identifiers are distinct *)

Lemma update_one_at (oid : value) (upd ex : gmap string value)
    (l1 l2 : list (gmap string value)) :
  Forall (fun x => get x "_id" <> oid) l1 ->
  get ex "_id" = oid ->
  Coll.update_one (<["_id" := oid]> ∅) upd (l1 ++ ex :: l2) = l1 ++ (upd ∪ ex) :: l2.
Proof.
  intros Hl1 Hex. induction Hl1 as [|x l1 Hx _ IH]; simpl.
  - now rewrite (proj2 (matches_id oid ex) Hex).
  - destruct (matches (<["_id" := oid]> ∅) x) eqn:Hm.
    + apply matches_id in Hm. contradiction.
    + now rewrite IH.
Qed.

Lemma ids_distinct_split (ex : gmap string value) (l1 l2 : list (gmap string value)) :
  ids_distinct (l1 ++ ex :: l2) = true ->
  Forall (fun x => get x "_id" <> get ex "_id") l1.
Proof.
  unfold ids_distinct. rewrite bool_decide_eq_true, fmap_app, fmap_cons.
  intros (_ & Hdisj & _)%NoDup_app.
  apply Forall_forall. intros x Hx Heq.
  apply (Hdisj (get x "_id")).
  - apply list_elem_of_fmap. exists x. split; [reflexivity|]. exact Hx.
  - rewrite Heq. apply elem_of_cons. now left.
Qed.

Lemma ids_distinct_update (e : string) (b : RsvpRequest.t) (ex : gmap string value)
    (l1 l2 : list (gmap string value)) :
  ids_distinct (l1 ++ ex :: l2) = true ->
  ids_distinct (l1 ++ (rsvp_data e b ∪ ex) :: l2) = true.
Proof.
  assert (Hu : get (rsvp_data e b ∪ ex) "_id" = get ex "_id")
    by (unfold get; now rewrite rsvp_data_union_id).
  unfold ids_distinct. rewrite !bool_decide_eq_true, !fmap_app, !fmap_cons.
  now rewrite Hu.
Qed.

Lemma ids_below_app (next : N) (c1 c2 : list (gmap string value)) :
  ids_below next (c1 ++ c2) = ids_below next c1 && ids_below next c2.
Proof. apply forallb_app. Qed.

Lemma ids_below_update (next : N) (e : string) (b : RsvpRequest.t)
    (ex : gmap string value) (l1 l2 : list (gmap string value)) :
  ids_below next (l1 ++ ex :: l2) = true ->
  ids_below next (l1 ++ (rsvp_data e b ∪ ex) :: l2) = true.
Proof.
  assert (Hu : has_oid_below next (rsvp_data e b ∪ ex) = has_oid_below next ex)
    by (unfold has_oid_below; now rewrite rsvp_data_union_id).
  rewrite !ids_below_app. cbn [ids_below forallb]. now rewrite Hu.
Qed.

Lemma has_oid_below_get (next : N) (d : gmap string value) :
  has_oid_below next d = true ->
  exists o, d !! "_id" = Some (VOid o) /\ (o < next)%N.
Proof.
  unfold has_oid_below. destruct (d !! "_id") as [[| |o]|]; try discriminate.
  intros H%N.ltb_lt. eauto.
Qed.

Lemma ids_below_succ (next : N) (c : list (gmap string value)) :
  ids_below next c = true -> ids_below (N.succ next) c = true.
Proof.
  unfold ids_below. rewrite !forallb_forall. intros H d Hd.
  destruct (has_oid_below_get _ _ (H d Hd)) as (o & Ho & Hlt).
  unfold has_oid_below. rewrite Ho. apply N.ltb_lt. lia.
Qed.

Lemma ids_below_fresh (next : N) (c : list (gmap string value)) :
  ids_below next c = true ->
  Forall (fun x => get x "_id" <> VOid next) c.
Proof.
  unfold ids_below. rewrite forallb_forall, Forall_forall. intros H d Hd Heq.
  apply list_elem_of_In in Hd.
  destruct (has_oid_below_get _ _ (H d Hd)) as (o & Ho & Hlt).
  unfold get in Heq. rewrite Ho in Heq. simpl in Heq.
  injection Heq as ->. lia.
Qed.

Lemma coll_ok_insert (next : N) (c : list (gmap string value))
    (record : gmap string value) :
  coll_ok next c = true ->
  coll_ok (N.succ next) (c ++ [<["_id" := VOid next]> record]) = true.
Proof.
  unfold coll_ok. rewrite !andb_true_iff. intros [Hb Hd]. split.
  - rewrite ids_below_app, (ids_below_succ _ _ Hb). simpl.
    unfold has_oid_below. rewrite lookup_insert_eq.
    rewrite (proj2 (N.ltb_lt _ _)) by lia. reflexivity.
  - unfold ids_distinct in *. rewrite bool_decide_eq_true in *.
    rewrite fmap_app. apply NoDup_app. split; [exact Hd|]. split.
    + intros v Hv Hin. simpl in Hin. apply list_elem_of_singleton in Hin.
      apply list_elem_of_fmap in Hv as (x & -> & Hx).
      pose proof (ids_below_fresh _ _ Hb) as Hf.
      rewrite Forall_forall in Hf. apply (Hf x); [exact Hx|].
      rewrite Hin. unfold get. now rewrite lookup_insert_eq.
    + apply NoDup_singleton.
Qed.

(** *** [find_one] and counts on a collection split at a document *)

Lemma find_one_skip (q y : gmap string value) (l1 l2 : list (gmap string value)) :
  Forall (fun x => matches q x = false) l1 ->
  matches q y = true ->
  Coll.find_one q (l1 ++ y :: l2) = Some y.
Proof.
  intros Hl1 Hy. induction Hl1 as [|x l1 Hx _ IH]; simpl.
  - now rewrite Hy.
  - now rewrite Hx.
Qed.

Lemma find_one_none_all (q : gmap string value) (c : list (gmap string value)) :
  Coll.find_one q c = None -> Forall (fun x => matches q x = false) c.
Proof.
  intros H. apply Forall_forall. intros x Hx%list_elem_of_In.
  exact (find_none _ _ H x Hx).
Qed.

Lemma count_documents_cons (q d : gmap string value) (c : list (gmap string value)) :
  Coll.count_documents q (d :: c) =
  (if matches q d then 1 else 0) + Coll.count_documents q c.
Proof. simpl. now destruct (matches q d). Qed.

Lemma count_documents_update (e : string) (b : RsvpRequest.t) (ex : gmap string value)
    (l1 l2 : list (gmap string value)) (e' u' : string) :
  matches (rsvp_key e (RsvpRequest.user_id b)) ex = true ->
  Coll.count_documents (rsvp_key e' u') (l1 ++ (rsvp_data e b ∪ ex) :: l2) =
  Coll.count_documents (rsvp_key e' u') (l1 ++ ex :: l2).
Proof.
  intros Hex. rewrite !count_documents_app, !count_documents_cons.
  now rewrite (rsvp_data_union_key e b ex e' u' Hex).
Qed.

Lemma matches_new_rsvp (e : string) (b : RsvpRequest.t) (o : N) (e' u' : string) :
  matches (rsvp_key e' u') (<["_id" := VOid o]> (rsvp_data e b)) = true <->
  e' = e /\ u' = RsvpRequest.user_id b.
Proof.
  rewrite matches_rsvp_key.
  change (get (<["_id" := VOid o]> (rsvp_data e b)) "event_id") with (VStr e).
  change (get (<["_id" := VOid o]> (rsvp_data e b)) "user_id")
    with (VStr (RsvpRequest.user_id b)).
  split; [intros [[= ->] [= ->]]; auto | intros [-> ->]; auto].
Qed.

Lemma length_update_one (q upd : gmap string value) (c : list (gmap string value)) :
  length (Coll.update_one q upd c) = length c.
Proof.
  induction c as [|d c IH]; simpl; [reflexivity|].
  destruct (matches q d); simpl; now rewrite ?IH.
Qed.

(** *** [get_my_rsvp], by the outcome of its lookup *)

Lemma get_my_rsvp_not_found (d : Database) (e u : string) :
  Coll.find_one (rsvp_key e u) (collection d "rsvp") = None ->
  get_my_rsvp str_exn e u (Some d) =
  (Raise (HTTPException 404 "No RSVP yet"), Some d).
Proof.
  intros Hf.
  unfold get_my_rsvp, try_except, bind, db_getitem, find_one, lift, raise.
  now rewrite Hf.
Qed.

Lemma get_my_rsvp_found (d : Database) (e u : string) (doc : gmap string value) :
  Coll.find_one (rsvp_key e u) (collection d "rsvp") = Some doc ->
  get_my_rsvp str_exn e u (Some d) =
  (match RsvpOut.init (VStr (str (get doc "_id"))) (get doc "event_id")
                      (get doc "user_id") (get doc "status") (get doc "user_name") with
   | Return r => Return r
   | Raise _ => Raise (HTTPException 500 (str_exn (ValidationError "RsvpOut")))
   end, Some d).
Proof.
  intros Hf.
  unfold get_my_rsvp, try_except, bind, db_getitem, find_one, lift, raise.
  rewrite Hf, (truthy_find_rsvp _ _ _ _ Hf). cbn [negb default from_option id].
  apply find_one_some in Hf as [_ [He Hu]%matches_rsvp_key].
  rewrite He, Hu.
  destruct (get doc "status"), (get doc "user_name"); reflexivity.
Qed.

Lemma get_my_rsvp_found_ok (d : Database) (e u : string) (doc : gmap string value) :
  Coll.find_one (rsvp_key e u) (collection d "rsvp") = Some doc ->
  rsvp_doc_ok doc = true ->
  get_my_rsvp str_exn e u (Some d) =
  (Return (RsvpOut.mk (str (get doc "_id")) e u (str (get doc "status"))
                      (to_optional (get doc "user_name"))), Some d).
Proof.
  intros Hf Hok. rewrite (get_my_rsvp_found _ _ _ _ Hf).
  apply find_one_some in Hf as [_ [He Hu]%matches_rsvp_key].
  unfold rsvp_doc_ok in Hok. rewrite He, Hu in *.
  destruct (get doc "status"), (get doc "user_name"); try discriminate; reflexivity.
Qed.

(** *** One call of [set_rsvp] on a store whose identifiers are in order *)

Lemma set_rsvp_update (d : Database) (e : string) (b : RsvpRequest.t)
    (ex : gmap string value) :
  coll_ok (db_next_oid d) (collection d "rsvp") = true ->
  Coll.find_one (rsvp_key e (RsvpRequest.user_id b)) (collection d "rsvp") = Some ex ->
  exists (o : N) (l1 l2 : list (gmap string value)),
    ex !! "_id" = Some (VOid o) /\
    collection d "rsvp" = l1 ++ ex :: l2 /\
    Forall (fun x => matches (rsvp_key e (RsvpRequest.user_id b)) x = false) l1 /\
    matches (rsvp_key e (RsvpRequest.user_id b)) ex = true /\
    set_rsvp str_exn e b (Some d) =
    (Return (RsvpOut.mk (ObjectId_str o) e (RsvpRequest.user_id b)
                        (RsvpRequest.status b) (RsvpRequest.user_name b)),
     Some (set_collection d "rsvp" (l1 ++ (rsvp_data e b ∪ ex) :: l2))).
Proof.
  intros Hok Hf.
  destruct (find_one_split _ _ _ Hf) as (l1 & l2 & Hc & Hex & Hl1).
  apply andb_true_iff in Hok as [Hb Hd].
  assert (Hid : exists o, ex !! "_id" = Some (VOid o)).
  { unfold ids_below in Hb. rewrite forallb_forall in Hb.
    destruct (has_oid_below_get _ _ (Hb ex (proj1 (find_one_some _ _ _ Hf))))
      as (o & Ho & _). eauto. }
  destruct Hid as (o & Ho).
  exists o, l1, l2. repeat split; try assumption.
  rewrite (set_rsvp_found d e b ex (VOid o) Hf Ho). cbn [str].
  do 3 f_equal. rewrite Hc in Hd |- *.
  apply update_one_at.
  - replace (VOid o) with (get ex "_id") by (unfold get; now rewrite Ho).
    now apply ids_distinct_split with (l2 := l2).
  - unfold get. now rewrite Ho.
Qed.

Lemma unique_rsvp_update (e : string) (b : RsvpRequest.t) (ex : gmap string value)
    (l1 l2 : list (gmap string value)) :
  matches (rsvp_key e (RsvpRequest.user_id b)) ex = true ->
  unique_rsvp (l1 ++ ex :: l2) ->
  unique_rsvp (l1 ++ (rsvp_data e b ∪ ex) :: l2).
Proof.
  intros Hex Hu e' u'. rewrite (count_documents_update e b ex l1 l2 e' u' Hex).
  apply Hu.
Qed.

Lemma unique_rsvp_insert (e : string) (b : RsvpRequest.t) (o : N)
    (c : list (gmap string value)) :
  Coll.find_one (rsvp_key e (RsvpRequest.user_id b)) c = None ->
  unique_rsvp c ->
  unique_rsvp (c ++ [<["_id" := VOid o]> (rsvp_data e b)]).
Proof.
  intros Hf Hu e' u'. rewrite count_documents_app, count_documents_cons. simpl.
  destruct (matches (rsvp_key e' u') (<["_id" := VOid o]> (rsvp_data e b))) eqn:Hm.
  - apply matches_new_rsvp in Hm as [-> ->].
    apply find_one_none in Hf. rewrite Hf. lia.
  - specialize (Hu e' u'). lia.
Qed.

Lemma count_rsvp_insert (e : string) (b : RsvpRequest.t) (o : N)
    (c : list (gmap string value)) :
  Coll.find_one (rsvp_key e (RsvpRequest.user_id b)) c = None ->
  Coll.count_documents (rsvp_key e (RsvpRequest.user_id b))
    (c ++ [<["_id" := VOid o]> (rsvp_data e b)]) = 1.
Proof.
  intros Hf%find_one_none. rewrite count_documents_app, count_documents_cons, Hf.
  now rewrite (proj2 (matches_new_rsvp e b o e (RsvpRequest.user_id b))).
Qed.

Lemma set_rsvp_step (d : Database) (e : string) (b : RsvpRequest.t) :
  coll_ok (db_next_oid d) (collection d "rsvp") = true ->
  unique_rsvp (collection d "rsvp") ->
  exists (i : string) (d' : Database) (doc : gmap string value),
    set_rsvp str_exn e b (Some d) =
    (Return (RsvpOut.mk i e (RsvpRequest.user_id b) (RsvpRequest.status b)
                        (RsvpRequest.user_name b)), Some d') /\
    coll_ok (db_next_oid d') (collection d' "rsvp") = true /\
    unique_rsvp (collection d' "rsvp") /\
    Coll.count_documents (rsvp_key e (RsvpRequest.user_id b)) (collection d' "rsvp") = 1 /\
    Coll.find_one (rsvp_key e (RsvpRequest.user_id b)) (collection d' "rsvp") = Some doc /\
    stored_as (RsvpOut.mk i e (RsvpRequest.user_id b) (RsvpRequest.status b)
                          (RsvpRequest.user_name b)) doc /\
    match Coll.find_one (rsvp_key e (RsvpRequest.user_id b)) (collection d "rsvp") with
    | Some ex =>
        length (collection d' "rsvp") = length (collection d "rsvp") /\
        i = str (get ex "_id")
    | None =>
        length (collection d' "rsvp") = S (length (collection d "rsvp")) /\
        i = ObjectId_str (db_next_oid d)
    end.
Proof.
  intros Hok Hu.
  destruct (Coll.find_one (rsvp_key e (RsvpRequest.user_id b)) (collection d "rsvp"))
    as [ex|] eqn:Hf.
  - destruct (set_rsvp_update d e b ex Hok Hf) as (o & l1 & l2 & Ho & Hc & Hl1 & Hex & Hs).
    exists (ObjectId_str o), (set_collection d "rsvp" (l1 ++ (rsvp_data e b ∪ ex) :: l2)),
      (rsvp_data e b ∪ ex).
    rewrite collection_set_collection. cbn [db_next_oid set_collection].
    rewrite Hc in Hok, Hu |- *.
    apply andb_true_iff in Hok as [Hb Hd].
    assert (Hcount : Coll.count_documents (rsvp_key e (RsvpRequest.user_id b))
                       (l1 ++ ex :: l2) = 1).
    { pose proof (Hu e (RsvpRequest.user_id b)) as Hle.
      rewrite count_documents_app, count_documents_cons, Hex in Hle |- *. lia. }
    split; [exact Hs|]. split.
    { unfold coll_ok. now rewrite ids_below_update, ids_distinct_update. }
    split; [now apply unique_rsvp_update|].
    split; [now rewrite count_documents_update|].
    split.
    { apply find_one_skip; [exact Hl1|].
      now rewrite rsvp_data_union_key. }
    split.
    { unfold stored_as. cbn [RsvpOut.id RsvpOut.event_id RsvpOut.user_id
                               RsvpOut.status RsvpOut.user_name].
      repeat split; try (apply get_union_l; reflexivity).
      unfold get. rewrite rsvp_data_union_id, Ho. reflexivity. }
    split; [now rewrite !length_app|].
    unfold get. now rewrite Ho.
  - rewrite (set_rsvp_not_found d e b Hf).
    eexists _, _, (<["_id" := VOid (db_next_oid d)]> (rsvp_data e b)).
    split; [reflexivity|].
    rewrite collection_insert_one. cbn [db_next_oid insert_one].
    split; [now apply coll_ok_insert|].
    split; [now apply unique_rsvp_insert|].
    split; [now apply count_rsvp_insert|].
    split.
    { apply find_one_skip; [now apply find_one_none_all|].
      now apply matches_new_rsvp. }
    split; [repeat split|].
    split; [|reflexivity].
    rewrite length_app. simpl. lia.
Qed.

(** *** Set RSVP *)

(** Two calls for one pair, counted by the handler's own query. *)
Lemma set_rsvp_twice (d : Database) (e : string) (b1 b2 : RsvpRequest.t) :
  coll_ok (db_next_oid d) (collection d "rsvp") = true ->
  unique_rsvp (collection d "rsvp") ->
  RsvpRequest.user_id b2 = RsvpRequest.user_id b1 ->
  exists (i : string) (d1 d2 : Database) (doc : gmap string value),
    set_rsvp str_exn e b1 (Some d) =
    (Return (RsvpOut.mk i e (RsvpRequest.user_id b1) (RsvpRequest.status b1)
                        (RsvpRequest.user_name b1)), Some d1) /\
    unique_rsvp (collection d1 "rsvp") /\
    Coll.count_documents (rsvp_key e (RsvpRequest.user_id b1)) (collection d1 "rsvp") = 1 /\
    length (collection d1 "rsvp") =
    length (collection d "rsvp") +
    (1 - Coll.count_documents (rsvp_key e (RsvpRequest.user_id b1)) (collection d "rsvp")) /\
    set_rsvp str_exn e b2 (Some d1) =
    (Return (RsvpOut.mk i e (RsvpRequest.user_id b1) (RsvpRequest.status b2)
                        (RsvpRequest.user_name b2)), Some d2) /\
    unique_rsvp (collection d2 "rsvp") /\
    Coll.count_documents (rsvp_key e (RsvpRequest.user_id b1)) (collection d2 "rsvp") = 1 /\
    length (collection d2 "rsvp") = length (collection d1 "rsvp") /\
    Coll.find_one (rsvp_key e (RsvpRequest.user_id b1)) (collection d2 "rsvp") = Some doc /\
    str (get doc "_id") = i /\
    get doc "status" = VStr (RsvpRequest.status b2).
Proof.
  intros Hok Hu Hsame.
  destruct (set_rsvp_step d e b1 Hok Hu)
    as (i & d1 & doc1 & Hs1 & Hok1 & Hu1 & Hc1 & Hf1 & Hst1 & Hcase1).
  destruct (set_rsvp_step d1 e b2 Hok1 Hu1)
    as (i2 & d2 & doc2 & Hs2 & Hok2 & Hu2 & Hc2 & Hf2 & Hst2 & Hcase2).
  rewrite Hsame in Hs2, Hc2, Hf2, Hst2, Hcase2.
  rewrite Hf1 in Hcase2. destruct Hcase2 as [Hlen2 Hi2].
  assert (Hi : i2 = i) by (rewrite Hi2; apply Hst1).
  clear Hi2. subst i2.
  exists i, d1, d2, doc2.
  split; [exact Hs1|]. split; [exact Hu1|]. split; [exact Hc1|].
  split.
  { destruct (Coll.find_one (rsvp_key e (RsvpRequest.user_id b1)) (collection d "rsvp"))
      as [ex|] eqn:Hf.
    - destruct Hcase1 as [-> _].
      pose proof (Hu e (RsvpRequest.user_id b1)) as Hle.
      destruct (Coll.count_documents (rsvp_key e (RsvpRequest.user_id b1))
                  (collection d "rsvp")) as [|[|n]] eqn:Hn; [|lia|lia].
      apply find_one_none in Hn. congruence.
    - destruct Hcase1 as [-> _]. apply find_one_none in Hf. rewrite Hf. lia. }
  split; [exact Hs2|]. split; [exact Hu2|]. split; [exact Hc2|].
  split; [exact Hlen2|]. split; [exact Hf2|].
  destruct Hst2 as (Hid & _ & _ & Hstatus & _). split; [exact Hid | exact Hstatus].
Qed.

(** *** Pairs told by the documents' own fields *)

Lemma matches_pair_fields (e u : string) (doc : gmap string value) :
  matches (rsvp_key e u) doc = true <->
  doc !! "event_id" = Some (VStr e) /\ doc !! "user_id" = Some (VStr u).
Proof.
  rewrite matches_rsvp_key.
  rewrite (get_lookup doc "event_id" (VStr e)) by (intros H; discriminate H).
  rewrite (get_lookup doc "user_id" (VStr u)) by (intros H; discriminate H).
  reflexivity.
Qed.

Lemma count_pair_docs (e u : string) (c : list (gmap string value)) :
  Coll.count_documents (rsvp_key e u) c = length (pair_docs e u c).
Proof.
  unfold pair_docs. induction c as [|x c IH]; [reflexivity|].
  rewrite count_documents_cons, filter_cons.
  destruct (matches (rsvp_key e u) x) eqn:Hm.
  - apply matches_pair_fields in Hm. rewrite decide_True by exact Hm.
    cbn [length]. now rewrite IH.
  - rewrite decide_False; [exact IH|].
    intros Hx. apply matches_pair_fields in Hx. rewrite Hx in Hm. discriminate Hm.
Qed.

Lemma unique_rsvp_fields (c : list (gmap string value)) :
  unique_rsvp c <-> one_per_pair c.
Proof.
  unfold unique_rsvp, one_per_pair.
  split; intros H e u; specialize (H e u).
  - rewrite count_pair_docs in H. exact H.
  - rewrite count_pair_docs. exact H.
Qed.

Lemma no_match_no_fields (e u : string) (l : list (gmap string value)) :
  Forall (fun x => matches (rsvp_key e u) x = false) l ->
  Forall (fun x : gmap string value =>
            ~ (x !! "event_id" = Some (VStr e) /\ x !! "user_id" = Some (VStr u))) l.
Proof.
  intros Hall. eapply Forall_impl; [exact Hall|]. intros x Hx Hf. simpl in Hx.
  apply matches_pair_fields in Hf. rewrite Hf in Hx. discriminate Hx.
Qed.

Lemma pair_docs_none (e u : string) (l : list (gmap string value)) :
  Forall (fun x => matches (rsvp_key e u) x = false) l -> pair_docs e u l = [].
Proof.
  intros Hall. unfold pair_docs. induction Hall as [|x l Hx _ IH]; [reflexivity|].
  rewrite filter_cons, decide_False; [exact IH|].
  intros Hf. apply matches_pair_fields in Hf. rewrite Hf in Hx. discriminate Hx.
Qed.

Lemma pair_docs_found (e u : string) (c : list (gmap string value))
    (doc : gmap string value) :
  Coll.find_one (rsvp_key e u) c = Some doc ->
  length (pair_docs e u c) = 1 ->
  pair_docs e u c = [doc].
Proof.
  intros Hf Hlen.
  destruct (find_one_split _ _ _ Hf) as (l1 & l2 & -> & Hm & Hl1).
  apply matches_pair_fields in Hm.
  unfold pair_docs in *. rewrite filter_app, filter_cons, decide_True in * by exact Hm.
  fold (pair_docs e u l1) in *. rewrite (pair_docs_none e u l1 Hl1) in *.
  cbn [app length] in *.
  destruct (filter _ l2) as [|y l]; [reflexivity | cbn [length] in Hlen; lia].
Qed.

(** C2. In sequential execution, a call of [set_rsvp] keeps "at most one
    RSVP document per [(event_id, user_id)]", the documents of a pair
    being those whose own [event_id] and [user_id] fields are the pair's:
    on a store whose identifiers are distinct and where the invariant
    holds, a first submission for a pair leaves exactly one document for
    it (the collection grows by one when the pair was new, and not at all
    otherwise) and the invariant holds again; a second submission for the
    same pair, whatever its status, is answered with the same id, adds no
    document, and the one document of the pair carries that id and the
    new status. *)
Theorem set_rsvp_one_per_pair (d : Database) (e : string) (b1 b2 : RsvpRequest.t) :
  coll_ok (db_next_oid d) (collection d "rsvp") = true ->
  one_per_pair (collection d "rsvp") ->
  RsvpRequest.user_id b2 = RsvpRequest.user_id b1 ->
  exists (i : string) (d1 d2 : Database) (doc : gmap string value),
    set_rsvp str_exn e b1 (Some d) =
    (Return (RsvpOut.mk i e (RsvpRequest.user_id b1) (RsvpRequest.status b1)
                        (RsvpRequest.user_name b1)), Some d1) /\
    one_per_pair (collection d1 "rsvp") /\
    length (pair_docs e (RsvpRequest.user_id b1) (collection d1 "rsvp")) = 1 /\
    length (collection d1 "rsvp") =
    length (collection d "rsvp") +
    (1 - length (pair_docs e (RsvpRequest.user_id b1) (collection d "rsvp"))) /\
    set_rsvp str_exn e b2 (Some d1) =
    (Return (RsvpOut.mk i e (RsvpRequest.user_id b1) (RsvpRequest.status b2)
                        (RsvpRequest.user_name b2)), Some d2) /\
    one_per_pair (collection d2 "rsvp") /\
    pair_docs e (RsvpRequest.user_id b1) (collection d2 "rsvp") = [doc] /\
    length (collection d2 "rsvp") = length (collection d1 "rsvp") /\
    doc !! "_id" <> None /\
    str (get doc "_id") = i /\
    doc !! "status" = Some (VStr (RsvpRequest.status b2)).
Proof.
  intros Hok Hu%unique_rsvp_fields Hsame.
  destruct (set_rsvp_twice d e b1 b2 Hok Hu Hsame)
    as (i & d1 & d2 & doc & Hs1 & Hu1 & Hc1 & Hl1 & Hs2 & Hu2 & Hc2 & Hl2 & Hf & Hi & Hst).
  rewrite count_pair_docs in Hc1, Hl1, Hc2.
  apply unique_rsvp_fields in Hu1. apply unique_rsvp_fields in Hu2.
  exists i, d1, d2, doc.
  split; [exact Hs1|]. split; [exact Hu1|]. split; [exact Hc1|]. split; [exact Hl1|].
  split; [exact Hs2|]. split; [exact Hu2|].
  split; [now apply pair_docs_found|]. split; [exact Hl2|].
  assert (Hok2 : coll_ok (db_next_oid d2) (collection d2 "rsvp") = true).
  { destruct (set_rsvp_step d e b1 Hok Hu)
      as (i' & d1' & doc1 & Hs1' & Hok1 & Hu1' & _).
    rewrite Hs1 in Hs1'. injection Hs1' as _ <-.
    destruct (set_rsvp_step d1 e b2 Hok1 Hu1')
      as (i2 & d2' & doc2 & Hs2' & Hok2 & _).
    rewrite Hsame, Hs2 in Hs2'. injection Hs2' as _ <-. exact Hok2. }
  apply andb_true_iff in Hok2 as [Hb _].
  unfold ids_below in Hb. rewrite forallb_forall in Hb.
  destruct (has_oid_below_get _ _ (Hb doc (proj1 (find_one_some _ _ _ Hf))))
    as (o & Ho & _).
  split; [rewrite Ho; intros Hq; discriminate Hq|].
  split; [exact Hi|].
  apply get_lookup in Hst; [exact Hst | intros Hq; discriminate Hq].
Qed.

(** C3. The steps of [set_rsvp].  Either the collection holds a document
    with the pair's [event_id] and [user_id], and then the first such
    document is overwritten in place: in the store after the call it sits
    at the same position, its [status], [user_name], [event_id] and
    [user_id] are the request's, every other field is as it was, and its
    id is the id answered.  Or no document has the pair's fields, and then
    the store after the call holds one more document, at the end, with the
    request's values and nothing else under an id no document had, which
    is the id answered.  Either way the answer is
    [{id, event_id, user_id, status, user_name}]. *)
Theorem set_rsvp_steps (d : Database) (e : string) (b : RsvpRequest.t) :
  coll_ok (db_next_oid d) (collection d "rsvp") = true ->
  (exists (o : N) (l1 l2 : list (gmap string value)) (ex doc' : gmap string value)
          (d' : Database),
      collection d "rsvp" = l1 ++ ex :: l2 /\
      Forall (fun x : gmap string value =>
                ~ (x !! "event_id" = Some (VStr e) /\
                   x !! "user_id" = Some (VStr (RsvpRequest.user_id b)))) l1 /\
      ex !! "event_id" = Some (VStr e) /\
      ex !! "user_id" = Some (VStr (RsvpRequest.user_id b)) /\
      ex !! "_id" = Some (VOid o) /\
      set_rsvp str_exn e b (Some d) =
      (Return (RsvpOut.mk (ObjectId_str o) e (RsvpRequest.user_id b)
                          (RsvpRequest.status b) (RsvpRequest.user_name b)),
       Some d') /\
      collection d' "rsvp" = l1 ++ doc' :: l2 /\
      doc' !! "event_id" = Some (VStr e) /\
      doc' !! "user_id" = Some (VStr (RsvpRequest.user_id b)) /\
      doc' !! "status" = Some (VStr (RsvpRequest.status b)) /\
      doc' !! "user_name" = Some (of_optional (RsvpRequest.user_name b)) /\
      (forall k : string,
          k <> "event_id" -> k <> "user_id" -> k <> "status" -> k <> "user_name" ->
          doc' !! k = ex !! k)) \/
  (exists (doc' : gmap string value) (d' : Database),
      Forall (fun x : gmap string value =>
                ~ (x !! "event_id" = Some (VStr e) /\
                   x !! "user_id" = Some (VStr (RsvpRequest.user_id b))))
             (collection d "rsvp") /\
      Forall (fun x : gmap string value => x !! "_id" <> Some (VOid (db_next_oid d)))
             (collection d "rsvp") /\
      set_rsvp str_exn e b (Some d) =
      (Return (RsvpOut.mk (ObjectId_str (db_next_oid d)) e (RsvpRequest.user_id b)
                          (RsvpRequest.status b) (RsvpRequest.user_name b)),
       Some d') /\
      collection d' "rsvp" = collection d "rsvp" ++ [doc'] /\
      doc' !! "_id" = Some (VOid (db_next_oid d)) /\
      doc' !! "event_id" = Some (VStr e) /\
      doc' !! "user_id" = Some (VStr (RsvpRequest.user_id b)) /\
      doc' !! "status" = Some (VStr (RsvpRequest.status b)) /\
      doc' !! "user_name" = Some (of_optional (RsvpRequest.user_name b)) /\
      (forall k : string,
          k <> "_id" -> k <> "event_id" -> k <> "user_id" -> k <> "status" ->
          k <> "user_name" -> doc' !! k = None)).
Proof.
  intros Hok.
  destruct (Coll.find_one (rsvp_key e (RsvpRequest.user_id b)) (collection d "rsvp"))
    as [ex|] eqn:Hf.
  - left.
    destruct (set_rsvp_update d e b ex Hok Hf) as (o & l1 & l2 & Ho & Hc & Hl1 & Hex & Hs).
    exists o, l1, l2, ex, (rsvp_data e b ∪ ex),
      (set_collection d "rsvp" (l1 ++ (rsvp_data e b ∪ ex) :: l2)).
    apply matches_pair_fields in Hex as [He Hu].
    split; [exact Hc|]. split; [now apply no_match_no_fields|].
    split; [exact He|]. split; [exact Hu|]. split; [exact Ho|]. split; [exact Hs|].
    split; [apply collection_set_collection|].
    repeat (split; [apply lookup_union_Some_l; reflexivity|]).
    intros k H1 H2 H3 H4. apply lookup_union_r. unfold rsvp_data.
    rewrite !lookup_insert_ne, lookup_empty by congruence. reflexivity.
  - right.
    exists (<["_id" := VOid (db_next_oid d)]> (rsvp_data e b)),
      (insert_one d "rsvp" (rsvp_data e b)).
    split; [apply no_match_no_fields; now apply find_one_none_all|].
    split.
    { apply andb_true_iff in Hok as [Hb _]. apply ids_below_fresh in Hb.
      eapply Forall_impl; [exact Hb|]. intros x Hx Hid. apply Hx.
      unfold get. rewrite Hid. reflexivity. }
    split; [now apply set_rsvp_not_found|].
    split; [apply collection_insert_one|].
    repeat (split; [reflexivity|]).
    intros k H0 H1 H2 H3 H4. unfold rsvp_data.
    rewrite !lookup_insert_ne, lookup_empty by congruence. reflexivity.
Qed.

(** C9. In both branches of [set_rsvp] the answer's [event_id],
    [user_id], [status] and [user_name] are the path's [event_id] and the
    body's values: nothing of the answer but its id is read from the
    stored document. *)
Theorem set_rsvp_echoes_request (d : Database) (e : string) (b : RsvpRequest.t) :
  match Coll.find_one (rsvp_key e (RsvpRequest.user_id b)) (collection d "rsvp") with
  | Some ex =>
      match ex !! "_id" with
      | Some oid =>
          fst (set_rsvp str_exn e b (Some d)) =
          Return (RsvpOut.mk (str oid) e (RsvpRequest.user_id b)
                             (RsvpRequest.status b) (RsvpRequest.user_name b))
      | None =>
          fst (set_rsvp str_exn e b (Some d)) =
          Raise (HTTPException 500 (str_exn (KeyError "_id")))
      end
  | None =>
      fst (set_rsvp str_exn e b (Some d)) =
      Return (RsvpOut.mk (ObjectId_str (db_next_oid d)) e (RsvpRequest.user_id b)
                         (RsvpRequest.status b) (RsvpRequest.user_name b))
  end.
Proof.
  destruct (Coll.find_one (rsvp_key e (RsvpRequest.user_id b)) (collection d "rsvp"))
    as [ex|] eqn:Hf.
  - destruct (ex !! "_id") as [oid|] eqn:Hid.
    + now rewrite (set_rsvp_found d e b ex oid Hf Hid).
    + now rewrite (set_rsvp_found_no_id d e b ex Hf Hid).
  - now rewrite (set_rsvp_not_found d e b Hf).
Qed.

(** *** Counts *)

Lemma get_counts_spec (d : Database) (e : string) :
  get_counts str_exn e (Some d) =
  (Return (Counts.mk
             (Coll.count_documents (counts_query e "going") (collection d "rsvp"))
             (Coll.count_documents (counts_query e "not_going") (collection d "rsvp"))),
   Some d).
Proof. reflexivity. Qed.

Lemma matches_new_status (e : string) (b : RsvpRequest.t) (o : N) (s : string) :
  matches (counts_query e s) (<["_id" := VOid o]> (rsvp_data e b)) =
  bool_decide (RsvpRequest.status b = s).
Proof.
  apply eq_true_iff_eq. rewrite matches_counts_query, bool_decide_eq_true.
  change (get (<["_id" := VOid o]> (rsvp_data e b)) "event_id") with (VStr e).
  change (get (<["_id" := VOid o]> (rsvp_data e b)) "status")
    with (VStr (RsvpRequest.status b)).
  split; [intros [_ [= ->]]; reflexivity | intros ->; auto].
Qed.

Lemma count_status_cons (s : string) (b : RsvpRequest.t) (bodies : list RsvpRequest.t) :
  count_status s (b :: bodies) =
  (if bool_decide (RsvpRequest.status b = s) then 1 else 0) + count_status s bodies.
Proof.
  unfold count_status. rewrite filter_cons.
  destruct (decide (RsvpRequest.status b = s)) as [H|H].
  - now rewrite bool_decide_eq_true_2.
  - now rewrite bool_decide_eq_false_2.
Qed.

(** Submissions of users who have no document on the event yet, each
    user once: every one of them is an insertion. *)
Lemma submit_all_counts (e : string) (bodies : list RsvpRequest.t) (d : Database) :
  NoDup (RsvpRequest.user_id <$> bodies) ->
  (forall b, b ∈ bodies ->
     Coll.find_one (rsvp_key e (RsvpRequest.user_id b)) (collection d "rsvp") = None) ->
  exists d',
    submit_all str_exn e bodies (Some d) = Some d' /\
    forall s,
      Coll.count_documents (counts_query e s) (collection d' "rsvp") =
      Coll.count_documents (counts_query e s) (collection d "rsvp") + count_status s bodies.
Proof.
  revert d. induction bodies as [|b bodies IH]; intros d Hnd Hnone.
  - exists d. split; [reflexivity|]. intros s. unfold count_status. simpl. lia.
  - rewrite fmap_cons in Hnd. apply NoDup_cons in Hnd as [Hb Hnd].
    cbn [submit_all].
    rewrite (set_rsvp_not_found d e b (Hnone b (list_elem_of_here _ _))). cbn [snd].
    destruct (IH (insert_one d "rsvp" (rsvp_data e b)) Hnd) as (d' & Hd' & Hcount).
    { intros b' Hb'. rewrite collection_insert_one.
      apply find_one_none. rewrite count_documents_app, count_documents_cons.
      rewrite (proj1 (find_one_none _ _) (Hnone b' (list_elem_of_further _ _ _ Hb'))).
      destruct (matches (rsvp_key e (RsvpRequest.user_id b'))
                  (<["_id" := VOid (db_next_oid d)]> (rsvp_data e b))) eqn:Hm;
        [|reflexivity].
      apply matches_new_rsvp in Hm as [_ Hm]. exfalso. apply Hb.
      rewrite <- Hm. now apply list_elem_of_fmap_2. }
    exists d'. split; [exact Hd'|]. intros s.
    rewrite Hcount, collection_insert_one, count_documents_app, count_documents_cons.
    rewrite matches_new_status, count_status_cons. simpl. lia.
Qed.

Lemma no_event_no_match (e : string) (c : list (gmap string value)) :
  Forall (fun doc : gmap string value => doc !! "event_id" <> Some (VStr e)) c ->
  (forall u, Coll.find_one (rsvp_key e u) c = None) /\
  (forall s, Coll.count_documents (counts_query e s) c = 0).
Proof.
  intros Hc. split.
  - intros u. apply find_one_none. induction Hc as [|x c Hx _ IH]; [reflexivity|].
    rewrite count_documents_cons, IH.
    destruct (matches (rsvp_key e u) x) eqn:Hm; [|reflexivity].
    apply matches_rsvp_key in Hm as [Hm _].
    apply get_lookup in Hm; [contradiction | discriminate].
  - intros s. induction Hc as [|x c Hx _ IH]; [reflexivity|].
    rewrite count_documents_cons, IH.
    destruct (matches (counts_query e s) x) eqn:Hm; [|reflexivity].
    apply matches_counts_query in Hm as [Hm _].
    apply get_lookup in Hm; [contradiction | discriminate].
Qed.

(** C4. [get_counts] answers, for every event, the number of RSVP
    documents of that event whose status is "going" and the number whose
    status is "not_going"; and after the submissions of distinct users on
    an event that had no RSVP, three of them "going" and two "not_going",
    it answers [{going: 3, not_going: 2}]. *)
Theorem get_counts_tally :
  (forall (d : Database) (e : string),
      get_counts str_exn e (Some d) =
      (Return (Counts.mk
                 (length (filter (fun doc : gmap string value =>
                                    doc !! "event_id" = Some (VStr e) /\
                                    doc !! "status" = Some (VStr "going"))
                                 (collection d "rsvp")))
                 (length (filter (fun doc : gmap string value =>
                                    doc !! "event_id" = Some (VStr e) /\
                                    doc !! "status" = Some (VStr "not_going"))
                                 (collection d "rsvp")))),
       Some d)) /\
  (forall (d : Database) (e : string) (bodies : list RsvpRequest.t),
      Forall (fun doc : gmap string value => doc !! "event_id" <> Some (VStr e))
             (collection d "rsvp") ->
      NoDup (RsvpRequest.user_id <$> bodies) ->
      count_status "going" bodies = 3 ->
      count_status "not_going" bodies = 2 ->
      fst (get_counts str_exn e (submit_all str_exn e bodies (Some d))) =
      Return (Counts.mk 3 2)).
Proof.
  split.
  - intros d e. now rewrite get_counts_spec, !count_documents_filter.
  - intros d e bodies Hnone Hnd Hg Hn.
    destruct (no_event_no_match e _ Hnone) as [Hfind Hzero].
    destruct (submit_all_counts e bodies d Hnd) as (d' & -> & Hcount).
    { intros b _. apply Hfind. }
    rewrite get_counts_spec. cbn [fst].
    now rewrite !Hcount, !Hzero, Hg, Hn.
Qed.

(** *** Events *)

Lemma create_event_spec (d : Database) (ev : Event.t) :
  create_event str_exn ev (Some d) =
  (Return (<["id" := VStr (ObjectId_str (db_next_oid d))]> ∅),
   Some (insert_one d "event" (Event.model_dump ev))).
Proof. reflexivity. Qed.

Lemma create_event_no_store (ev : Event.t) :
  create_event str_exn ev None =
  (Raise (HTTPException 500 (str_exn StoreUnavailable)), None).
Proof. reflexivity. Qed.

Lemma get_event_no_store (i : string) :
  get_event str_exn i None = (Raise (HTTPException 400 (str_exn TypeError)), None).
Proof. reflexivity. Qed.

Lemma get_event_invalid (d : Database) (i : string) (ex : exn) :
  ObjectId i = Raise ex ->
  get_event str_exn i (Some d) = (Raise (HTTPException 400 (str_exn ex)), Some d).
Proof.
  intros Hp. unfold get_event, try_except, bind, db_getitem, lift, raise.
  now rewrite Hp.
Qed.

Lemma get_event_not_found (d : Database) (i : string) (o : N) :
  ObjectId i = Return o ->
  Coll.find_one (<["_id" := VOid o]> ∅) (collection d "event") = None ->
  get_event str_exn i (Some d) =
  (Raise (HTTPException 400 (str_exn (HTTPException 404 "Event not found"))), Some d).
Proof.
  intros Hp Hf. unfold get_event, try_except, bind, db_getitem, find_one, lift, raise.
  now rewrite Hp, Hf.
Qed.

Lemma get_event_found (d : Database) (i : string) (o : N) (doc : gmap string value) :
  ObjectId i = Return o ->
  Coll.find_one (<["_id" := VOid o]> ∅) (collection d "event") = Some doc ->
  get_event str_exn i (Some d) =
  (match _doc_to_event_out doc with
   | Return r => Return r
   | Raise ex => Raise (HTTPException 400 (str_exn ex))
   end, Some d).
Proof.
  intros Hp Hf. unfold get_event, try_except, bind, db_getitem, find_one, lift, raise.
  rewrite Hp, Hf.
  apply find_one_some in Hf as [_ Hid%matches_id].
  rewrite (truthy_get doc "_id") by (rewrite Hid; discriminate).
  cbn [negb default from_option id].
  now destruct (_doc_to_event_out doc).
Qed.


Lemma doc_to_event_out_bad (doc : gmap string value) :
  event_doc_ok doc = false ->
  _doc_to_event_out doc = Raise (ValidationError "EventOut").
Proof.
  unfold event_doc_ok, _doc_to_event_out. intros Hok.
  destruct (get doc "title"), (get doc "description"), (get doc "date_iso"),
    (get doc "location"), (get doc "cover_image_url");
    try discriminate; reflexivity.
Qed.

Lemma doc_to_event_out_dump (o : N) (ev : Event.t) :
  _doc_to_event_out (<["_id" := VOid o]> (Event.model_dump ev)) =
  Return (EventOut.mk (ObjectId_str o) (Event.title ev) (Event.description ev)
                      (Event.date_iso ev) (Event.location ev)
                      (Event.cover_image_url ev)).
Proof. destruct ev as [t [de|] di l [c|]]; reflexivity. Qed.

(** C5. Creating an event from a payload answers an id, and fetching
    the event of that id answers the payload's [title], [description],
    [date_iso], [location] and [cover_image_url] (with the id). *)
Theorem create_then_get_event (d : Database) (ev : Event.t) :
  ids_below (db_next_oid d) (collection d "event") = true ->
  (db_next_oid d < 2 ^ 96)%N ->
  exists (i : string) (d' : Database),
    create_event str_exn ev (Some d) = (Return (<["id" := VStr i]> ∅), Some d') /\
    get_event str_exn i (Some d') =
    (Return (EventOut.mk i (Event.title ev) (Event.description ev) (Event.date_iso ev)
                         (Event.location ev) (Event.cover_image_url ev)),
     Some d').
Proof.
  intros Hb Hlt.
  exists (ObjectId_str (db_next_oid d)), (insert_one d "event" (Event.model_dump ev)).
  split; [apply create_event_spec|].
  rewrite (get_event_found _ _ (db_next_oid d)
             (<["_id" := VOid (db_next_oid d)]> (Event.model_dump ev))).
  - now rewrite doc_to_event_out_dump.
  - now apply ObjectId_str_roundtrip.
  - rewrite collection_insert_one. apply find_one_skip.
    + apply ids_below_fresh in Hb.
      eapply Forall_impl; [exact Hb|]. intros x Hx. simpl in Hx.
      destruct (matches (<["_id" := VOid (db_next_oid d)]> ∅) x) eqn:Hm; [|reflexivity].
      apply matches_id in Hm. contradiction.
    + now apply matches_id.
Qed.


(** *** Get my RSVP *)

Lemma find_one_unique (e u : string) (c : list (gmap string value))
    (doc doc' : gmap string value) :
  unique_rsvp c ->
  In doc c ->
  matches (rsvp_key e u) doc = true ->
  Coll.find_one (rsvp_key e u) c = Some doc' ->
  doc' = doc.
Proof.
  intros Hu Hin Hm Hf.
  destruct (find_one_split _ _ _ Hf) as (l1 & l2 & -> & Hm' & Hl1).
  specialize (Hu e u).
  rewrite count_documents_app, count_documents_cons, Hm' in Hu.
  apply in_app_or in Hin as [Hin|[Hin|Hin]].
  - rewrite Forall_forall in Hl1. apply list_elem_of_In in Hin.
    rewrite (Hl1 doc Hin) in Hm. discriminate Hm.
  - exact Hin.
  - apply in_split in Hin as (l3 & l4 & ->).
    rewrite count_documents_app, count_documents_cons, Hm in Hu. lia.
Qed.

(** C7. [get_my_rsvp] answers 404 for a pair [(event_id, user_id)] that
    has no RSVP document, and answers the pair's document, projected to
    [{id, event_id, user_id, status, user_name}], when there is one. *)
Theorem get_my_rsvp_404_or_projection :
  (forall (d : Database) (e u : string),
      (forall doc : gmap string value,
          doc ∈ collection d "rsvp" ->
          ~ (doc !! "event_id" = Some (VStr e) /\ doc !! "user_id" = Some (VStr u))) ->
      get_my_rsvp str_exn e u (Some d) =
      (Raise (HTTPException 404 "No RSVP yet"), Some d)) /\
  (forall (d : Database) (e u : string) (doc : gmap string value),
      unique_rsvp (collection d "rsvp") ->
      doc ∈ collection d "rsvp" ->
      doc !! "event_id" = Some (VStr e) ->
      doc !! "user_id" = Some (VStr u) ->
      rsvp_doc_ok doc = true ->
      get_my_rsvp str_exn e u (Some d) =
      (Return (RsvpOut.mk (str (get doc "_id")) e u (str (get doc "status"))
                          (to_optional (get doc "user_name"))),
       Some d)).
Proof.
  split.
  - intros d e u Hnone. apply get_my_rsvp_not_found.
    destruct (Coll.find_one (rsvp_key e u) (collection d "rsvp")) as [doc|] eqn:Hf;
      [|reflexivity].
    apply find_one_some in Hf as [Hin [He Hu]%matches_rsvp_key].
    exfalso. apply (Hnone doc); [now apply list_elem_of_In|].
    split; apply get_lookup; try discriminate; assumption.
  - intros d e u doc Huniq Hin He Hu Hok.
    assert (Hm : matches (rsvp_key e u) doc = true).
    { apply matches_rsvp_key. split; apply get_lookup; try discriminate; assumption. }
    destruct (Coll.find_one (rsvp_key e u) (collection d "rsvp")) as [doc'|] eqn:Hf.
    + apply list_elem_of_In in Hin.
      rewrite (find_one_unique e u _ doc doc' Huniq Hin Hm Hf) in Hf.
      now apply get_my_rsvp_found_ok.
    + apply find_one_none_all in Hf. rewrite Forall_forall in Hf.
      rewrite (Hf doc Hin) in Hm. discriminate Hm.
Qed.

(** *** Diagnostics *)

(** C8. [test_database] never raises: whatever the handle and the
    environment it returns its payload; a missing handle and a failing
    enumeration of the collections are told in the [database] text; and
    the [collections] it lists are never more than ten. *)
Theorem test_database_never_raises (db : option Database)
    (getenv : string -> option string) :
  exists r : Diagnostics.t,
    test_database str_exn db getenv = Return r /\
    length (Diagnostics.collections r) <= 10 /\
    Diagnostics.backend r = "✅ Running"%string /\
    match db with
    | None =>
        Diagnostics.database r = "⚠️  Available but not initialized"%string /\
        Diagnostics.collections r = []
    | Some d =>
        match db_list_collection_names d with
        | Return names =>
            Diagnostics.database r = "✅ Connected & Working"%string /\
            Diagnostics.collections r = take 10 names
        | Raise e =>
            Diagnostics.database r =
            ("⚠️  Connected but Error: " ++ String.substring 0 50 (str_exn e))%string /\
            Diagnostics.collections r = []
        end
    end.
Proof.
  destruct db as [d|].
  - unfold test_database, try_except, bind, modify, lift.
    destruct (db_list_collection_names d) as [names|e]; cbn.
    + eexists. split; [reflexivity|]. cbn. repeat split.
      rewrite length_take. lia.
    + eexists. split; [reflexivity|]. cbn. repeat split. lia.
  - eexists. split; [reflexivity|]. cbn. repeat split. lia.
Qed.

(** C10, amended. In the payload of [test_database] the fields
    [database_url] and [database_name] tell only whether [DATABASE_URL] and
    [DATABASE_NAME] are set to a text that is not empty ("✅ Set" then,
    "❌ Not Set" when the variable is absent or empty): for every handle,
    the last two assignments replace what the connection had put there. *)
Theorem test_database_env_fields (db : option Database)
    (getenv : string -> option string) :
  exists r : Diagnostics.t,
    test_database str_exn db getenv = Return r /\
    Diagnostics.database_url r =
    Some (match getenv "DATABASE_URL" with
          | Some (String _ _) => "✅ Set"
          | Some EmptyString => "❌ Not Set"
          | None => "❌ Not Set"
          end)%string /\
    Diagnostics.database_name r =
    Some (match getenv "DATABASE_NAME" with
          | Some (String _ _) => "✅ Set"
          | Some EmptyString => "❌ Not Set"
          | None => "❌ Not Set"
          end)%string.
Proof.
  assert (Hurl : (if env_truthy (getenv "DATABASE_URL") then "✅ Set" else "❌ Not Set")%string
                 = match getenv "DATABASE_URL" with
                   | Some (String _ _) => "✅ Set"
                   | Some EmptyString => "❌ Not Set"
                   | None => "❌ Not Set"
                   end%string)
    by (destruct (getenv "DATABASE_URL") as [[|a s]|]; reflexivity).
  assert (Hname : (if env_truthy (getenv "DATABASE_NAME") then "✅ Set" else "❌ Not Set")%string
                  = match getenv "DATABASE_NAME" with
                    | Some (String _ _) => "✅ Set"
                    | Some EmptyString => "❌ Not Set"
                    | None => "❌ Not Set"
                    end%string)
    by (destruct (getenv "DATABASE_NAME") as [[|a s]|]; reflexivity).
  rewrite <- Hurl, <- Hname. clear Hurl Hname.
  destruct db as [d|].
  - unfold test_database, try_except, bind, modify, lift.
    destruct (db_list_collection_names d) as [names|e]; cbn;
      eexists; (split; [reflexivity|]); cbn; split; reflexivity.
  - eexists. split; [reflexivity|]. cbn. split; reflexivity.
Qed.

(** *** The validation boundary of Set RSVP *)

Lemma post_rsvp_any_status (d : Database) (e s u : string) :
  Coll.find_one (rsvp_key e u) (collection d "rsvp") = None ->
  post_rsvp str_exn e (<["status" := VStr s]> (<["user_id" := VStr u]> ∅)) (Some d) =
  (Return (RsvpOut.mk (ObjectId_str (db_next_oid d)) e u s None),
   Some (insert_one d "rsvp" (rsvp_data e (RsvpRequest.mk s u None)))).
Proof.
  intros Hf. unfold post_rsvp.
  change (RsvpRequest.validate (<["status" := VStr s]> (<["user_id" := VStr u]> ∅)))
    with (Return (RsvpRequest.mk s u None)).
  cbv beta iota.
  exact (set_rsvp_not_found d e (RsvpRequest.mk s u None) Hf).
Qed.

End Properties.

(** ** The handlers on the sample stores *)

(** C1. A status outside "going" / "not_going" is not rejected at the
    validation boundary of Set RSVP: the schema [Rsvp] refuses "maybe", but
    the request is validated against [RsvpRequest], whose [status] is any
    text, so the handler runs, answers 200, and writes the document. *)
Theorem rsvp_status_maybe_is_written :
  Rsvp.as_status (VStr "maybe") = Raise (ValidationError "Rsvp") /\
  RsvpRequest.validate maybe_json = Return (RsvpRequest.mk "maybe" "u1" None) /\
  post_rsvp exn_text "e1" maybe_json (Some store_empty) =
  (Return (RsvpOut.mk "000000000000000000000000" "e1" "u1" "maybe" None),
   Some (insert_one store_empty "rsvp" (rsvp_data "e1" (RsvpRequest.mk "maybe" "u1" None)))) /\
  status_of (fst (post_rsvp exn_text "e1" maybe_json (Some store_empty))) = 200%Z /\
  collection (insert_one store_empty "rsvp"
                (rsvp_data "e1" (RsvpRequest.mk "maybe" "u1" None))) "rsvp" =
  [<["_id" := VOid 0]> (rsvp_data "e1" (RsvpRequest.mk "maybe" "u1" None))] /\
  get (<["_id" := VOid 0]> (rsvp_data "e1" (RsvpRequest.mk "maybe" "u1" None))) "status" =
  VStr "maybe".
Proof. repeat split; vm_compute; reflexivity. Qed.

Lemma unique_rsvp_nil : unique_rsvp [].
Proof. intros e u. simpl. lia. Defined.

Lemma unique_rsvp_single (doc : gmap string value) : unique_rsvp [doc].
Proof. intros e u. simpl. destruct (matches (rsvp_key e u) doc); lia. Defined.

Lemma one_per_pair_nil : one_per_pair [].
Proof. intros e u. cbn. lia. Defined.

(** Two submissions of user "u1" on event "e1", from the empty store. *)
Lemma set_rsvp_one_per_pair_witness :
  coll_ok (db_next_oid store_empty) (collection store_empty "rsvp") = true /\
  one_per_pair (collection store_empty "rsvp") /\
  RsvpRequest.user_id not_going_u1 = RsvpRequest.user_id going_u1 /\
  exists (i : string) (d1 d2 : Database) (doc : gmap string value),
    set_rsvp exn_text "e1" going_u1 (Some store_empty) =
    (Return (RsvpOut.mk i "e1" (RsvpRequest.user_id going_u1)
                        (RsvpRequest.status going_u1)
                        (RsvpRequest.user_name going_u1)), Some d1) /\
    one_per_pair (collection d1 "rsvp") /\
    length (pair_docs "e1" (RsvpRequest.user_id going_u1) (collection d1 "rsvp")) = 1 /\
    length (collection d1 "rsvp") =
    length (collection store_empty "rsvp") +
    (1 - length (pair_docs "e1" (RsvpRequest.user_id going_u1)
                           (collection store_empty "rsvp"))) /\
    set_rsvp exn_text "e1" not_going_u1 (Some d1) =
    (Return (RsvpOut.mk i "e1" (RsvpRequest.user_id going_u1)
                        (RsvpRequest.status not_going_u1)
                        (RsvpRequest.user_name not_going_u1)), Some d2) /\
    one_per_pair (collection d2 "rsvp") /\
    pair_docs "e1" (RsvpRequest.user_id going_u1) (collection d2 "rsvp") = [doc] /\
    length (collection d2 "rsvp") = length (collection d1 "rsvp") /\
    doc !! "_id" <> None /\
    str (get doc "_id") = i /\
    doc !! "status" = Some (VStr (RsvpRequest.status not_going_u1)).
Proof.
  assert (H1 : coll_ok (db_next_oid store_empty) (collection store_empty "rsvp") = true)
    by reflexivity.
  assert (H2 : one_per_pair (collection store_empty "rsvp")) by exact one_per_pair_nil.
  assert (H3 : RsvpRequest.user_id not_going_u1 = RsvpRequest.user_id going_u1)
    by reflexivity.
  exact (conj H1 (conj H2 (conj H3
           (set_rsvp_one_per_pair exn_text store_empty "e1" going_u1 not_going_u1
                                  H1 H2 H3)))).
Defined.

(** The update branch on the store that holds the answer of "u1", and
    the insert branch on the empty store. *)
Lemma set_rsvp_steps_witness :
  coll_ok (db_next_oid store_one_rsvp) (collection store_one_rsvp "rsvp") = true /\
  ((exists (o : N) (l1 l2 : list (gmap string value)) (ex doc' : gmap string value)
           (d' : Database),
       collection store_one_rsvp "rsvp" = l1 ++ ex :: l2 /\
       Forall (fun x : gmap string value =>
                 ~ (x !! "event_id" = Some (VStr "e1") /\
                    x !! "user_id" = Some (VStr (RsvpRequest.user_id not_going_u1)))) l1 /\
       ex !! "event_id" = Some (VStr "e1") /\
       ex !! "user_id" = Some (VStr (RsvpRequest.user_id not_going_u1)) /\
       ex !! "_id" = Some (VOid o) /\
       set_rsvp exn_text "e1" not_going_u1 (Some store_one_rsvp) =
       (Return (RsvpOut.mk (ObjectId_str o) "e1" (RsvpRequest.user_id not_going_u1)
                           (RsvpRequest.status not_going_u1)
                           (RsvpRequest.user_name not_going_u1)),
        Some d') /\
       collection d' "rsvp" = l1 ++ doc' :: l2 /\
       doc' !! "event_id" = Some (VStr "e1") /\
       doc' !! "user_id" = Some (VStr (RsvpRequest.user_id not_going_u1)) /\
       doc' !! "status" = Some (VStr (RsvpRequest.status not_going_u1)) /\
       doc' !! "user_name" = Some (of_optional (RsvpRequest.user_name not_going_u1)) /\
       (forall k : string,
           k <> "event_id" -> k <> "user_id" -> k <> "status" -> k <> "user_name" ->
           doc' !! k = ex !! k)) \/
   (exists (doc' : gmap string value) (d' : Database),
       Forall (fun x : gmap string value =>
                 ~ (x !! "event_id" = Some (VStr "e1") /\
                    x !! "user_id" = Some (VStr (RsvpRequest.user_id not_going_u1))))
              (collection store_one_rsvp "rsvp") /\
       Forall (fun x : gmap string value =>
                 x !! "_id" <> Some (VOid (db_next_oid store_one_rsvp)))
              (collection store_one_rsvp "rsvp") /\
       set_rsvp exn_text "e1" not_going_u1 (Some store_one_rsvp) =
       (Return (RsvpOut.mk (ObjectId_str (db_next_oid store_one_rsvp)) "e1"
                           (RsvpRequest.user_id not_going_u1)
                           (RsvpRequest.status not_going_u1)
                           (RsvpRequest.user_name not_going_u1)),
        Some d') /\
       collection d' "rsvp" = collection store_one_rsvp "rsvp" ++ [doc'] /\
       doc' !! "_id" = Some (VOid (db_next_oid store_one_rsvp)) /\
       doc' !! "event_id" = Some (VStr "e1") /\
       doc' !! "user_id" = Some (VStr (RsvpRequest.user_id not_going_u1)) /\
       doc' !! "status" = Some (VStr (RsvpRequest.status not_going_u1)) /\
       doc' !! "user_name" = Some (of_optional (RsvpRequest.user_name not_going_u1)) /\
       (forall k : string,
           k <> "_id" -> k <> "event_id" -> k <> "user_id" -> k <> "status" ->
           k <> "user_name" -> doc' !! k = None))).
Proof.
  assert (H1 : coll_ok (db_next_oid store_one_rsvp) (collection store_one_rsvp "rsvp")
               = true) by reflexivity.
  exact (conj H1 (set_rsvp_steps exn_text store_one_rsvp "e1" not_going_u1 H1)).
Defined.

(** The model agrees with itself: submitting [going_u1] on the empty store
    gives the sample store, its enumeration now showing "rsvp"; and the
    update of that store keeps the document's place and id. *)
Example set_rsvp_on_sample_stores :
  snd (set_rsvp exn_text "e1" going_u1 (Some store_empty)) = Some store_one_rsvp /\
  (exists d',
      snd (set_rsvp exn_text "e1" not_going_u1 (Some store_one_rsvp)) = Some d' /\
      collection d' "rsvp" = [<["_id" := VOid 0]> (rsvp_data "e1" not_going_u1)]).
Proof.
  split; [vm_compute; reflexivity|].
  eexists. split; [reflexivity|]. vm_compute. reflexivity.
Qed.

(** C10, as stated, fails: with [DATABASE_URL] set to the empty text the
    payload says "❌ Not Set", so the field does not tell whether the
    variable is set. *)
Lemma test_database_empty_url_not_set :
  env_empty_url "DATABASE_URL" = Some ""%string /\
  exists r : Diagnostics.t,
    test_database exn_text None env_empty_url = Return r /\
    Diagnostics.database_url r = Some "❌ Not Set"%string /\
    ~ (Diagnostics.database_url r =
       Some (match env_empty_url "DATABASE_URL" with
             | Some _ => "✅ Set"
             | None => "❌ Not Set"
             end)%string).
Proof.
  split; [reflexivity|].
  eexists. split; [vm_compute; reflexivity|].
  split; [reflexivity|].
  intros H. vm_compute in H. discriminate H.
Qed.

(** Three users going and two not going, on an event without RSVP. *)
Lemma get_counts_tally_witness :
  Forall (fun doc : gmap string value => doc !! "event_id" <> Some (VStr "e1"))
         (collection store_empty "rsvp") /\
  NoDup (RsvpRequest.user_id <$> five_bodies) /\
  count_status "going" five_bodies = 3 /\
  count_status "not_going" five_bodies = 2 /\
  fst (get_counts exn_text "e1" (submit_all exn_text "e1" five_bodies (Some store_empty))) =
  Return (Counts.mk 3 2).
Proof.
  assert (H1 : Forall (fun doc : gmap string value =>
                         doc !! "event_id" <> Some (VStr "e1"))
                      (collection store_empty "rsvp")) by apply Forall_nil_2.
  assert (H2 : NoDup (RsvpRequest.user_id <$> five_bodies))
    by (apply (bool_decide_unpack _); vm_compute; exact I).
  assert (H3 : count_status "going" five_bodies = 3) by reflexivity.
  assert (H4 : count_status "not_going" five_bodies = 2) by reflexivity.
  exact (conj H1 (conj H2 (conj H3 (conj H4
           (proj2 (get_counts_tally exn_text) store_empty "e1" five_bodies
                  H1 H2 H3 H4))))).
Defined.

(** Creating [launch] in the empty store and reading it back. *)
Lemma create_then_get_event_witness :
  ids_below (db_next_oid store_empty) (collection store_empty "event") = true /\
  (db_next_oid store_empty < 2 ^ 96)%N /\
  exists (i : string) (d' : Database),
    create_event exn_text launch (Some store_empty) =
    (Return (<["id" := VStr i]> ∅), Some d') /\
    get_event exn_text i (Some d') =
    (Return (EventOut.mk i (Event.title launch) (Event.description launch)
                         (Event.date_iso launch) (Event.location launch)
                         (Event.cover_image_url launch)),
     Some d').
Proof.
  assert (H1 : ids_below (db_next_oid store_empty) (collection store_empty "event")
               = true) by reflexivity.
  assert (H2 : (db_next_oid store_empty < 2 ^ 96)%N) by reflexivity.
  exact (conj H1 (conj H2 (create_then_get_event exn_text store_empty launch H1 H2))).
Defined.


(** No RSVP in the empty store; the RSVP of "u1" in the other. *)
Lemma get_my_rsvp_404_or_projection_witness :
  (forall doc : gmap string value,
      doc ∈ collection store_empty "rsvp" ->
      ~ (doc !! "event_id" = Some (VStr "e1") /\ doc !! "user_id" = Some (VStr "u1"))) /\
  get_my_rsvp exn_text "e1" "u1" (Some store_empty) =
  (Raise (HTTPException 404 "No RSVP yet"), Some store_empty) /\
  unique_rsvp (collection store_one_rsvp "rsvp") /\
  rsvp_doc_u1 ∈ collection store_one_rsvp "rsvp" /\
  rsvp_doc_u1 !! "event_id" = Some (VStr "e1") /\
  rsvp_doc_u1 !! "user_id" = Some (VStr "u1") /\
  rsvp_doc_ok rsvp_doc_u1 = true /\
  get_my_rsvp exn_text "e1" "u1" (Some store_one_rsvp) =
  (Return (RsvpOut.mk (str (get rsvp_doc_u1 "_id")) "e1" "u1"
                      (str (get rsvp_doc_u1 "status"))
                      (to_optional (get rsvp_doc_u1 "user_name"))),
   Some store_one_rsvp).
Proof.
  assert (H0 : forall doc : gmap string value,
             doc ∈ collection store_empty "rsvp" ->
             ~ (doc !! "event_id" = Some (VStr "e1") /\
                doc !! "user_id" = Some (VStr "u1")))
    by (intros doc Hin; apply not_elem_of_nil in Hin; destruct Hin).
  assert (H1 : unique_rsvp (collection store_one_rsvp "rsvp"))
    by exact (unique_rsvp_single rsvp_doc_u1).
  assert (H2 : rsvp_doc_u1 ∈ collection store_one_rsvp "rsvp")
    by apply list_elem_of_here.
  assert (H3 : rsvp_doc_u1 !! "event_id" = Some (VStr "e1")) by reflexivity.
  assert (H4 : rsvp_doc_u1 !! "user_id" = Some (VStr "u1")) by reflexivity.
  assert (H5 : rsvp_doc_ok rsvp_doc_u1 = true) by reflexivity.
  exact (conj H0 (conj
           (proj1 (get_my_rsvp_404_or_projection exn_text) store_empty "e1" "u1" H0)
           (conj H1 (conj H2 (conj H3 (conj H4 (conj H5
              (proj2 (get_my_rsvp_404_or_projection exn_text)
                     store_one_rsvp "e1" "u1" rsvp_doc_u1 H1 H2 H3 H4 H5)))))))).
Defined.

(** The update branch answers the request's [user_name] ([None]), not the
    stored one ("Ann"), and the stored id. *)
Example set_rsvp_ignores_stored_fields :
  get rsvp_doc_u1 "user_name" = VStr "Ann" /\
  get rsvp_doc_u1 "status" = VStr "going" /\
  fst (set_rsvp exn_text "e1" not_going_u1 (Some store_one_rsvp)) =
  Return (RsvpOut.mk "000000000000000000000000" "e1" "u1" "not_going" None).
Proof. repeat split; vm_compute; reflexivity. Qed.

(** Twelve collections are listed as ten; the handle's name "events" does
    not reach the payload. *)
Example test_database_twelve :
  test_database exn_text (Some store_twelve) env_url_only =
  Return (Diagnostics.mk "✅ Running" "✅ Connected & Working"
                         (Some "✅ Set") (Some "❌ Not Set") "Connected"
                         ["c01"; "c02"; "c03"; "c04"; "c05";
                          "c06"; "c07"; "c08"; "c09"; "c10"]).
Proof. vm_compute. reflexivity. Qed.

Example test_database_failing :
  test_database exn_text (Some store_failing) env_url_only =
  Return (Diagnostics.mk "✅ Running" "⚠️  Connected but Error: not authorized"
                         (Some "✅ Set") (Some "❌ Not Set") "Connected" []).
Proof. vm_compute. reflexivity. Qed.

Example test_database_no_handle :
  test_database exn_text None env_url_only =
  Return (Diagnostics.mk "✅ Running" "⚠️  Available but not initialized"
                         (Some "✅ Set") (Some "❌ Not Set") "Not Connected" []).
Proof. vm_compute. reflexivity. Qed.

(** An id that is not 24 hexadecimal digits, and one that no event has. *)
Example get_event_bad_ids :
  fst (get_event exn_text "42" (Some store_one_event)) =
  Raise (HTTPException 400 "42") /\
  fst (get_event exn_text "0000000000000000000000ff" (Some store_one_event)) =
  Raise (HTTPException 400 "Event not found").
Proof. split; vm_compute; reflexivity. Qed.

(** * Further properties of the handlers *)

Section Further.

Variable str_exn : exn -> string.

(** ** What one call of [set_rsvp] writes *)

Lemma find_one_app (q : gmap string value) (l1 l2 : list (gmap string value)) :
  Coll.find_one q (l1 ++ l2) =
  match Coll.find_one q l1 with
  | Some d => Some d
  | None => Coll.find_one q l2
  end.
Proof.
  induction l1 as [|x l1 IH]; simpl; [reflexivity|].
  destruct (matches q x); [reflexivity | exact IH].
Qed.

Lemma rsvp_data_no_id (e : string) (b : RsvpRequest.t) : rsvp_data e b !! "_id" = None.
Proof. reflexivity. Qed.

Lemma set_collection_same (d : Database) (name : string) :
  db_collections d !! name = Some (collection d name) ->
  set_collection d name (collection d name) = d.
Proof.
  intros H. destruct d as [n l cs o]. unfold set_collection. cbn in *.
  f_equal. now apply insert_id.
Qed.

Lemma set_rsvp_writes (d : Database) (e : string) (b : RsvpRequest.t) :
  coll_ok (db_next_oid d) (collection d "rsvp") = true ->
  exists (i : string) (d' : Database) (doc : gmap string value),
    set_rsvp str_exn e b (Some d) =
    (Return (RsvpOut.mk i e (RsvpRequest.user_id b) (RsvpRequest.status b)
                        (RsvpRequest.user_name b)), Some d') /\
    coll_ok (db_next_oid d') (collection d' "rsvp") = true /\
    db_collections d' !! "rsvp" = Some (collection d' "rsvp") /\
    Coll.find_one (rsvp_key e (RsvpRequest.user_id b)) (collection d' "rsvp") = Some doc /\
    stored_as (RsvpOut.mk i e (RsvpRequest.user_id b) (RsvpRequest.status b)
                          (RsvpRequest.user_name b)) doc /\
    rsvp_data e b ∪ doc = doc /\
    match Coll.find_one (rsvp_key e (RsvpRequest.user_id b)) (collection d "rsvp") with
    | Some ex =>
        exists l1 l2 : list (gmap string value),
          collection d "rsvp" = l1 ++ ex :: l2 /\
          collection d' "rsvp" = l1 ++ doc :: l2 /\
          doc = rsvp_data e b ∪ ex /\
          matches (rsvp_key e (RsvpRequest.user_id b)) ex = true /\
          d' = set_collection d "rsvp" (l1 ++ doc :: l2)
    | None =>
        collection d' "rsvp" = collection d "rsvp" ++ [doc] /\
        doc = <["_id" := VOid (db_next_oid d)]> (rsvp_data e b) /\
        d' = insert_one d "rsvp" (rsvp_data e b)
    end.
Proof.
  intros Hok.
  destruct (Coll.find_one (rsvp_key e (RsvpRequest.user_id b)) (collection d "rsvp"))
    as [ex|] eqn:Hf.
  - destruct (set_rsvp_update str_exn d e b ex Hok Hf)
      as (o & l1 & l2 & Ho & Hc & Hl1 & Hex & Hs).
    exists (ObjectId_str o), (set_collection d "rsvp" (l1 ++ (rsvp_data e b ∪ ex) :: l2)),
      (rsvp_data e b ∪ ex).
    rewrite collection_set_collection. cbn [db_next_oid set_collection db_collections].
    rewrite Hc in Hok. apply andb_true_iff in Hok as [Hb Hd].
    split; [exact Hs|]. split.
    { unfold coll_ok. now rewrite ids_below_update, ids_distinct_update. }
    split; [now rewrite lookup_insert_eq|].
    split.
    { apply find_one_skip; [exact Hl1|]. now rewrite rsvp_data_union_key. }
    split.
    { unfold stored_as. cbn [RsvpOut.id RsvpOut.event_id RsvpOut.user_id
                               RsvpOut.status RsvpOut.user_name].
      repeat split; try (apply get_union_l; reflexivity).
      unfold get. rewrite rsvp_data_union_id, Ho. reflexivity. }
    split.
    { apply map_subseteq_union, map_union_subseteq_l. }
    exists l1, l2. repeat split; assumption.
  - rewrite (set_rsvp_not_found str_exn d e b Hf).
    eexists _, _, (<["_id" := VOid (db_next_oid d)]> (rsvp_data e b)).
    split; [reflexivity|].
    rewrite collection_insert_one. cbn [db_next_oid insert_one db_collections].
    split; [now apply coll_ok_insert|].
    split; [now rewrite lookup_insert_eq|].
    split.
    { apply find_one_skip; [now apply find_one_none_all|]. now apply matches_new_rsvp. }
    split; [repeat split|].
    split.
    { apply map_subseteq_union, insert_subseteq, rsvp_data_no_id. }
    repeat split.
Qed.

(** X1. Every outcome of [set_rsvp] is an answer or an [HTTPException] of
    status 500, and a call that raises leaves the store as it was. *)
Theorem set_rsvp_fails_clean (db : option Database) (e : string) (b : RsvpRequest.t) :
  (exists (r : RsvpOut.t) (db' : option Database),
      set_rsvp str_exn e b db = (Return r, db')) \/
  (exists detail : string,
      set_rsvp str_exn e b db = (Raise (HTTPException 500 detail), db)).
Proof.
  destruct db as [d|]; [|right; eexists; apply set_rsvp_no_store].
  destruct (Coll.find_one (rsvp_key e (RsvpRequest.user_id b)) (collection d "rsvp"))
    as [ex|] eqn:Hf.
  - destruct (ex !! "_id") as [oid|] eqn:Hid.
    + left. rewrite (set_rsvp_found str_exn d e b ex oid Hf Hid). eauto.
    + right. rewrite (set_rsvp_found_no_id str_exn d e b ex Hf Hid). eauto.
  - left. rewrite (set_rsvp_not_found str_exn d e b Hf). eauto.
Qed.

(** X2. [set_rsvp] touches the documents of the [rsvp] collection only:
    the documents of every other collection stay, and the [rsvp]
    collection never loses a document and gains at most one. *)
Theorem set_rsvp_frame (d : Database) (e : string) (b : RsvpRequest.t) (name : string) :
  name <> "rsvp" ->
  match snd (set_rsvp str_exn e b (Some d)) with
  | Some d' =>
      collection d' name = collection d name /\
      length (collection d "rsvp") <= length (collection d' "rsvp") /\
      length (collection d' "rsvp") <= S (length (collection d "rsvp"))
  | None => False
  end.
Proof.
  intros Hname.
  destruct (Coll.find_one (rsvp_key e (RsvpRequest.user_id b)) (collection d "rsvp"))
    as [ex|] eqn:Hf.
  - destruct (ex !! "_id") as [oid|] eqn:Hid.
    + rewrite (set_rsvp_found str_exn d e b ex oid Hf Hid). cbn [snd].
      rewrite collection_set_collection, length_update_one.
      repeat split; try lia.
      unfold collection, set_collection. cbn [db_collections].
      now rewrite lookup_insert_ne by congruence.
    + rewrite (set_rsvp_found_no_id str_exn d e b ex Hf Hid). cbn [snd].
      repeat split; lia.
  - rewrite (set_rsvp_not_found str_exn d e b Hf). cbn [snd].
    rewrite collection_insert_one, length_app. cbn [length].
    repeat split; try lia.
    unfold collection, insert_one. cbn [db_collections].
    now rewrite lookup_insert_ne by congruence.
Qed.

Lemma to_optional_of_optional (n : option string) : to_optional (of_optional n) = n.
Proof. now destruct n. Qed.

Lemma stored_as_ok (r : RsvpOut.t) (doc : gmap string value) :
  stored_as r doc -> rsvp_doc_ok doc = true.
Proof.
  intros (_ & He & Hu & Hs & Hn). unfold rsvp_doc_ok.
  rewrite He, Hu, Hs, Hn. now destruct (RsvpOut.user_name r).
Qed.

(** X3. Reading after writing: on a store whose RSVP identifiers are
    distinct, [get_my_rsvp] of the pair answers exactly what [set_rsvp]
    has just answered. *)
Theorem set_rsvp_then_get_my_rsvp (d : Database) (e : string) (b : RsvpRequest.t) :
  coll_ok (db_next_oid d) (collection d "rsvp") = true ->
  match set_rsvp str_exn e b (Some d) with
  | (Return r, Some d') =>
      get_my_rsvp str_exn e (RsvpRequest.user_id b) (Some d') = (Return r, Some d')
  | _ => False
  end.
Proof.
  intros Hok.
  destruct (set_rsvp_writes d e b Hok) as (i & d' & doc & -> & _ & _ & Hf & Hst & _).
  rewrite (get_my_rsvp_found_ok str_exn d' e _ doc Hf (stored_as_ok _ _ Hst)).
  destruct Hst as (Hi & _ & _ & Hs & Hn).
  cbn [RsvpOut.id RsvpOut.status RsvpOut.user_name] in Hi, Hs, Hn.
  now rewrite Hi, Hs, Hn, to_optional_of_optional.
Qed.

(** X5. [set_rsvp] is idempotent: repeating a submission answers the same
    and leaves the store exactly as the first call left it. *)
Theorem set_rsvp_idempotent (d : Database) (e : string) (b : RsvpRequest.t) :
  coll_ok (db_next_oid d) (collection d "rsvp") = true ->
  match set_rsvp str_exn e b (Some d) with
  | (Return r, Some d') => set_rsvp str_exn e b (Some d') = (Return r, Some d')
  | _ => False
  end.
Proof.
  intros Hok.
  destruct (set_rsvp_writes d e b Hok)
    as (i & d' & doc & -> & Hok' & Hcoll & Hf & Hst & Hsub & _).
  destruct (set_rsvp_update str_exn d' e b doc Hok' Hf)
    as (o & l1 & l2 & Ho & Hc & _ & _ & ->).
  rewrite Hsub, <- Hc, (set_collection_same d' "rsvp" Hcoll).
  destruct Hst as (Hi & _). cbn [RsvpOut.id] in Hi.
  unfold get in Hi. rewrite Ho in Hi. cbn [default from_option id str] in Hi.
  now rewrite Hi.
Qed.

(** ** What a call of [set_rsvp] leaves alone *)

Lemma get_my_rsvp_fst (d : Database) (e u : string) :
  fst (get_my_rsvp str_exn e u (Some d)) =
  match Coll.find_one (rsvp_key e u) (collection d "rsvp") with
  | Some doc =>
      match RsvpOut.init (VStr (str (get doc "_id"))) (get doc "event_id")
                         (get doc "user_id") (get doc "status") (get doc "user_name") with
      | Return r => Return r
      | Raise _ => Raise (HTTPException 500 (str_exn (ValidationError "RsvpOut")))
      end
  | None => Raise (HTTPException 404 "No RSVP yet")
  end.
Proof.
  destruct (Coll.find_one (rsvp_key e u) (collection d "rsvp")) as [doc|] eqn:Hf.
  - now rewrite (get_my_rsvp_found str_exn d e u doc Hf).
  - now rewrite (get_my_rsvp_not_found str_exn d e u Hf).
Qed.

Lemma matches_two_keys (e u e' u' : string) (x : gmap string value) :
  matches (rsvp_key e u) x = true ->
  matches (rsvp_key e' u') x = true ->
  e' = e /\ u' = u.
Proof.
  intros [He Hu]%matches_rsvp_key [He' Hu']%matches_rsvp_key.
  rewrite He in He'. rewrite Hu in Hu'.
  injection He' as ->. injection Hu' as ->. auto.
Qed.

Lemma find_one_other_pair (d : Database) (e : string) (b : RsvpRequest.t)
    (e' u' : string) :
  coll_ok (db_next_oid d) (collection d "rsvp") = true ->
  e' <> e \/ u' <> RsvpRequest.user_id b ->
  exists d',
    snd (set_rsvp str_exn e b (Some d)) = Some d' /\
    Coll.find_one (rsvp_key e' u') (collection d' "rsvp") =
    Coll.find_one (rsvp_key e' u') (collection d "rsvp").
Proof.
  intros Hok Hne.
  destruct (set_rsvp_writes d e b Hok) as (i & d' & doc & Hs & _ & _ & _ & _ & _ & Hcase).
  exists d'. rewrite Hs. clear Hs Hok. split; [reflexivity|].
  destruct (Coll.find_one (rsvp_key e (RsvpRequest.user_id b)) (collection d "rsvp"))
    as [ex|].
  - destruct Hcase as (l1 & l2 & Hc & Hc' & Hdoc & Hex & _).
    rewrite Hc, Hc', Hdoc, !find_one_app. cbn [Coll.find_one find].
    rewrite (rsvp_data_union_key e b ex e' u' Hex).
    destruct (matches (rsvp_key e' u') ex) eqn:Hm; [|reflexivity].
    destruct (matches_two_keys _ _ _ _ _ Hex Hm) as [He Hu].
    exfalso. destruct Hne as [H|H]; [exact (H He) | exact (H Hu)].
  - destruct Hcase as (Hc' & Hdoc & _).
    rewrite Hc', Hdoc, find_one_app. cbn [Coll.find_one find].
    destruct (matches (rsvp_key e' u')
                (<["_id" := VOid (db_next_oid d)]> (rsvp_data e b))) eqn:Hm.
    + apply matches_new_rsvp in Hm as [He Hu].
      exfalso. destruct Hne as [H|H]; [exact (H He) | exact (H Hu)].
    + destruct (Coll.find_one (rsvp_key e' u') (collection d "rsvp")); reflexivity.
Qed.

(** X4. A submission for one pair does not change what [get_my_rsvp]
    answers for any other pair. *)
Theorem set_rsvp_other_pairs (d : Database) (e : string) (b : RsvpRequest.t)
    (e' u' : string) :
  coll_ok (db_next_oid d) (collection d "rsvp") = true ->
  e' <> e \/ u' <> RsvpRequest.user_id b ->
  fst (get_my_rsvp str_exn e' u' (snd (set_rsvp str_exn e b (Some d)))) =
  fst (get_my_rsvp str_exn e' u' (Some d)).
Proof.
  intros Hok Hne.
  destruct (find_one_other_pair d e b e' u' Hok Hne) as (d' & -> & Hf).
  now rewrite !get_my_rsvp_fst, Hf.
Qed.

Lemma matches_counts_union (e : string) (b : RsvpRequest.t) (ex : gmap string value)
    (e' s : string) :
  matches (counts_query e' s) (rsvp_data e b ∪ ex) =
  bool_decide (e = e') && bool_decide (RsvpRequest.status b = s).
Proof.
  apply eq_true_iff_eq.
  rewrite matches_counts_query, andb_true_iff, !bool_decide_eq_true.
  rewrite (get_union_l (rsvp_data e b) ex "event_id" (VStr e)) by reflexivity.
  rewrite (get_union_l (rsvp_data e b) ex "status" (VStr (RsvpRequest.status b)))
    by reflexivity.
  split; [intros [[= ->] [= ->]]; auto | intros [-> ->]; auto].
Qed.

Lemma matches_counts_new (e : string) (b : RsvpRequest.t) (o : N) (e' s : string) :
  matches (counts_query e' s) (<["_id" := VOid o]> (rsvp_data e b)) =
  bool_decide (e = e') && bool_decide (RsvpRequest.status b = s).
Proof.
  apply eq_true_iff_eq.
  rewrite matches_counts_query, andb_true_iff, !bool_decide_eq_true.
  change (get (<["_id" := VOid o]> (rsvp_data e b)) "event_id") with (VStr e).
  change (get (<["_id" := VOid o]> (rsvp_data e b)) "status")
    with (VStr (RsvpRequest.status b)).
  split; [intros [[= ->] [= ->]]; auto | intros [-> ->]; auto].
Qed.

Lemma matches_counts_stored (e u : string) (ex : gmap string value) (e' s : string) :
  matches (rsvp_key e u) ex = true ->
  matches (counts_query e' s) ex =
  bool_decide (e = e') && bool_decide (get ex "status" = VStr s).
Proof.
  intros [He _]%matches_rsvp_key.
  apply eq_true_iff_eq.
  rewrite matches_counts_query, andb_true_iff, !bool_decide_eq_true, He.
  split; [intros [[= ->] ?]; auto | intros [-> ?]; auto].
Qed.


(** X7. A submission on one event does not change what [get_counts]
    answers for any other event. *)
Theorem set_rsvp_other_events (d : Database) (e : string) (b : RsvpRequest.t)
    (e' : string) :
  coll_ok (db_next_oid d) (collection d "rsvp") = true ->
  e' <> e ->
  fst (get_counts str_exn e' (snd (set_rsvp str_exn e b (Some d)))) =
  fst (get_counts str_exn e' (Some d)).
Proof.
  intros Hok Hne.
  destruct (set_rsvp_writes d e b Hok) as (i & d' & doc & Hs & _ & _ & _ & _ & _ & Hcase).
  rewrite Hs. cbn [snd]. rewrite !get_counts_spec. cbn [fst].
  assert (Hsame : forall s,
             Coll.count_documents (counts_query e' s) (collection d' "rsvp") =
             Coll.count_documents (counts_query e' s) (collection d "rsvp")).
  { intros s.
    destruct (Coll.find_one (rsvp_key e (RsvpRequest.user_id b)) (collection d "rsvp"))
      as [ex|].
    - destruct Hcase as (l1 & l2 & -> & -> & -> & Hex & _).
      rewrite !count_documents_app, !count_documents_cons.
      rewrite matches_counts_union, (matches_counts_stored _ _ ex e' s Hex).
      now rewrite (bool_decide_eq_false_2 (e = e')) by congruence.
    - destruct Hcase as (-> & -> & _).
      rewrite count_documents_app, count_documents_cons, matches_counts_new.
      rewrite (bool_decide_eq_false_2 (e = e')) by congruence.
      cbn [andb Coll.count_documents]. lia. }
  now rewrite !Hsame.
Qed.

(** ** Creating events *)

Lemma collection_insert_one_ne (d : Database) (name name' : string)
    (record : gmap string value) :
  name' <> name ->
  collection (insert_one d name record) name' = collection d name'.
Proof.
  intros Hne. unfold collection, insert_one. cbn [db_collections].
  rewrite lookup_insert_ne by congruence. reflexivity.
Qed.

(** X8. [create_event] does not touch the RSVPs: after it, [get_my_rsvp]
    and [get_counts] answer what they answered before. *)
Theorem create_event_keeps_rsvps (d : Database) (ev : Event.t) (e u : string) :
  fst (get_my_rsvp str_exn e u (snd (create_event str_exn ev (Some d)))) =
  fst (get_my_rsvp str_exn e u (Some d)) /\
  fst (get_counts str_exn e (snd (create_event str_exn ev (Some d)))) =
  fst (get_counts str_exn e (Some d)).
Proof.
  rewrite create_event_spec. cbn [snd].
  rewrite !get_my_rsvp_fst, !get_counts_spec. cbn [fst].
  rewrite (collection_insert_one_ne d "event" "rsvp") by discriminate.
  split; reflexivity.
Qed.

Lemma ObjectId_str_inj (o1 o2 : N) :
  (o1 < 2 ^ 96)%N -> (o2 < 2 ^ 96)%N ->
  ObjectId_str o1 = ObjectId_str o2 -> o1 = o2.
Proof.
  intros H1 H2 Heq.
  pose proof (ObjectId_str_roundtrip o1 H1) as R1.
  pose proof (ObjectId_str_roundtrip o2 H2) as R2.
  rewrite Heq, R2 in R1. injection R1 as ->. reflexivity.
Qed.

(** X9. The id [create_event] answers is new: it is the text of no
    identifier of an event already stored. *)
Theorem create_event_fresh_id (d : Database) (ev : Event.t) :
  ids_below (db_next_oid d) (collection d "event") = true ->
  (db_next_oid d < 2 ^ 96)%N ->
  exists i : string,
    fst (create_event str_exn ev (Some d)) = Return (<["id" := VStr i]> ∅) /\
    Forall (fun x : gmap string value => str (get x "_id") <> i) (collection d "event").
Proof.
  intros Hb Hlt. exists (ObjectId_str (db_next_oid d)).
  rewrite create_event_spec. split; [reflexivity|].
  unfold ids_below in Hb. rewrite forallb_forall in Hb.
  apply Forall_forall. intros x Hx%list_elem_of_In Heq.
  destruct (has_oid_below_get _ _ (Hb x Hx)) as (o & Ho & Hlo).
  unfold get in Heq. rewrite Ho in Heq. cbn [default from_option id str] in Heq.
  apply ObjectId_str_inj in Heq; lia.
Qed.

Lemma get_event_fst (d : Database) (i : string) :
  fst (get_event str_exn i (Some d)) =
  match ObjectId i with
  | Raise ex => Raise (HTTPException 400 (str_exn ex))
  | Return o =>
      match Coll.find_one (<["_id" := VOid o]> ∅) (collection d "event") with
      | None => Raise (HTTPException 400 (str_exn (HTTPException 404 "Event not found")))
      | Some doc =>
          match _doc_to_event_out doc with
          | Return r => Return r
          | Raise ex => Raise (HTTPException 400 (str_exn ex))
          end
      end
  end.
Proof.
  destruct (ObjectId i) as [o|ex] eqn:Hp.
  - destruct (Coll.find_one (<["_id" := VOid o]> ∅) (collection d "event"))
      as [doc|] eqn:Hf.
    + rewrite (get_event_found str_exn d i o doc Hp Hf). reflexivity.
    + rewrite (get_event_not_found str_exn d i o Hp Hf). reflexivity.
  - rewrite (get_event_invalid str_exn d i ex Hp). reflexivity.
Qed.

(** X10. Creating an event does not disturb the events already stored:
    an id that [get_event] answered before is answered the same after. *)
Theorem create_event_keeps_events (d : Database) (ev : Event.t) (i : string)
    (r : EventOut.t) :
  fst (get_event str_exn i (Some d)) = Return r ->
  fst (get_event str_exn i (snd (create_event str_exn ev (Some d)))) = Return r.
Proof.
  rewrite create_event_spec. cbn [snd]. rewrite !get_event_fst.
  destruct (ObjectId i) as [o|ex]; [|intros H; exact H].
  rewrite collection_insert_one, find_one_app.
  destruct (Coll.find_one (<["_id" := VOid o]> ∅) (collection d "event")) as [doc|];
    [intros H; exact H|].
  intros H. discriminate H.
Qed.

(** ** The reading handlers *)

(** X11. [get_event], [get_my_rsvp] and [get_counts] never write: whatever
    they answer, the store is as it was. *)
Theorem readers_leave_store (db : option Database) (i e u : string) :
  snd (get_event str_exn i db) = db /\
  snd (get_my_rsvp str_exn e u db) = db /\
  snd (get_counts str_exn e db) = db.
Proof.
  destruct db as [d|]; [|repeat split].
  split; [|split].
  - destruct (ObjectId i) as [o|ex] eqn:Hp.
    + destruct (Coll.find_one (<["_id" := VOid o]> ∅) (collection d "event"))
        as [doc|] eqn:Hf.
      * rewrite (get_event_found str_exn d i o doc Hp Hf). reflexivity.
      * rewrite (get_event_not_found str_exn d i o Hp Hf). reflexivity.
    + rewrite (get_event_invalid str_exn d i ex Hp). reflexivity.
  - destruct (Coll.find_one (rsvp_key e u) (collection d "rsvp")) as [doc|] eqn:Hf.
    + rewrite (get_my_rsvp_found str_exn d e u doc Hf). reflexivity.
    + rewrite (get_my_rsvp_not_found str_exn d e u Hf). reflexivity.
  - rewrite get_counts_spec. reflexivity.
Qed.

(** X12. [get_my_rsvp] answers 404 only when the pair has no document:
    on a store, the answer is the 404 exactly when no document of the
    collection has that [event_id] and [user_id]; and every outcome, store
    or not, is an answer, that 404, or a 500. *)
Theorem get_my_rsvp_404_iff (db : option Database) (e u : string) :
  ((exists r, fst (get_my_rsvp str_exn e u db) = Return r) \/
   fst (get_my_rsvp str_exn e u db) = Raise (HTTPException 404 "No RSVP yet") \/
   (exists detail, fst (get_my_rsvp str_exn e u db) = Raise (HTTPException 500 detail))) /\
  match db with
  | Some d =>
      fst (get_my_rsvp str_exn e u db) = Raise (HTTPException 404 "No RSVP yet") <->
      Forall (fun doc : gmap string value =>
                ~ (doc !! "event_id" = Some (VStr e) /\ doc !! "user_id" = Some (VStr u)))
             (collection d "rsvp")
  | None =>
      fst (get_my_rsvp str_exn e u db) = Raise (HTTPException 500 (str_exn TypeError))
  end.
Proof.
  destruct db as [d|]; [|split; [right; right; eexists|]; reflexivity].
  rewrite get_my_rsvp_fst.
  destruct (Coll.find_one (rsvp_key e u) (collection d "rsvp")) as [doc|] eqn:Hf.
  - split.
    + destruct (RsvpOut.init _ _ _ _ _); [left | right; right]; eexists; reflexivity.
    + apply find_one_some in Hf as [Hin [He Hu]%matches_rsvp_key].
      split.
      * intros H.
        destruct (RsvpOut.init _ _ _ _ _); [discriminate H | injection H as H; lia].
      * rewrite Forall_forall. intros H. exfalso.
        apply (H doc); [now apply list_elem_of_In|].
        split; apply get_lookup; try assumption; intros H'; discriminate H'.
  - split; [right; left; reflexivity|].
    split; [|reflexivity]. intros _.
    apply find_one_none_all in Hf.
    eapply Forall_impl; [exact Hf|]. intros doc Hm [He Hu]. simpl in Hm.
    assert (Hm' : matches (rsvp_key e u) doc = true).
    { apply matches_rsvp_key.
      split; apply get_lookup; try assumption; intros H'; discriminate H'. }
    rewrite Hm' in Hm. discriminate Hm.
Qed.

Lemma counts_two_statuses (e : string) (c : list (gmap string value)) :
  Coll.count_documents (counts_query e "going") c +
  Coll.count_documents (counts_query e "not_going") c <=
  length (filter (fun doc : gmap string value => doc !! "event_id" = Some (VStr e)) c).
Proof.
  induction c as [|x c IH]; [simpl; lia|].
  rewrite !count_documents_cons, filter_cons.
  destruct (matches (counts_query e "going") x) eqn:Hg;
    destruct (matches (counts_query e "not_going") x) eqn:Hn.
  - apply matches_counts_query in Hg as [_ Hg].
    apply matches_counts_query in Hn as [_ Hn].
    rewrite Hg in Hn. discriminate Hn.
  - apply matches_counts_query in Hg as [Hg _].
    apply get_lookup in Hg; [|intros H'; discriminate H'].
    rewrite decide_True by exact Hg. simpl. lia.
  - apply matches_counts_query in Hn as [Hn _].
    apply get_lookup in Hn; [|intros H'; discriminate H'].
    rewrite decide_True by exact Hn. simpl. lia.
  - destruct (decide (x !! "event_id" = Some (VStr e))); simpl; lia.
Qed.

(** X13. On a store [get_counts] always answers, and its two tallies
    together never exceed the number of RSVP documents of the event: a
    document with any other status is counted in neither. *)
Theorem get_counts_bounded (d : Database) (e : string) :
  exists going not_going : nat,
    get_counts str_exn e (Some d) = (Return (Counts.mk going not_going), Some d) /\
    going + not_going <=
    length (filter (fun doc : gmap string value => doc !! "event_id" = Some (VStr e))
                   (collection d "rsvp")).
Proof.
  eexists _, _. split; [apply get_counts_spec|]. apply counts_two_statuses.
Qed.

(** X14. A stored event that lacks a required field is not projected:
    [get_event] answers 400, the validation error re-wrapped. *)
Theorem get_event_malformed_400 (d : Database) (i : string) (o : N)
    (doc : gmap string value) :
  ObjectId i = Return o ->
  Coll.find_one (<["_id" := VOid o]> ∅) (collection d "event") = Some doc ->
  event_doc_ok doc = false ->
  get_event str_exn i (Some d) =
  (Raise (HTTPException 400 (str_exn (ValidationError "EventOut"))), Some d).
Proof.
  intros Hp Hf Hbad.
  rewrite (get_event_found str_exn d i o doc Hp Hf).
  rewrite (doc_to_event_out_bad doc Hbad). reflexivity.
Qed.

(** ** The two RSVP models *)

(** X15. The schema [Rsvp] is the stricter model: a body it accepts has
    status "going" or "not_going", and [RsvpRequest] accepts the same body
    with the same [status], [user_id] and [user_name]. *)
Theorem Rsvp_stricter_than_RsvpRequest (body : gmap string value) (r : Rsvp.t) :
  Rsvp.validate body = Return r ->
  (Rsvp.status r = "going" \/ Rsvp.status r = "not_going") /\
  RsvpRequest.validate body =
  Return (RsvpRequest.mk (Rsvp.status r) (Rsvp.user_id r) (Rsvp.user_name r)).
Proof.
  unfold Rsvp.validate, RsvpRequest.validate, Rsvp.as_status.
  destruct (get body "event_id") as [|ev|]; cbn; try (intros H; discriminate H).
  destruct (get body "user_id") as [|us|]; cbn; try (intros H; discriminate H).
  destruct (get body "status") as [|st|]; cbn; try (intros H; discriminate H).
  destruct (bool_decide (st = "going")) eqn:Hg; cbn.
  - apply bool_decide_eq_true in Hg.
    destruct (get body "user_name") as [|un|]; cbn; intros H;
      try discriminate H; injection H as <-; cbn; auto.
  - destruct (bool_decide (st = "not_going")) eqn:Hn; cbn.
    + apply bool_decide_eq_true in Hn.
      destruct (get body "user_name") as [|un|]; cbn; intros H;
        try discriminate H; injection H as <-; cbn; auto.
    + intros H; discriminate H.
Qed.

(** ** Diagnostics *)

(** X17. [connection_status] tells only whether there is a handle: it is
    "Connected" with one, also when the enumeration of the collections
    fails, and "Not Connected" without. *)
Theorem test_database_connection_status (db : option Database)
    (getenv : string -> option string) :
  exists r : Diagnostics.t,
    test_database str_exn db getenv = Return r /\
    Diagnostics.connection_status r =
    match db with
    | Some _ => "Connected"%string
    | None => "Not Connected"%string
    end.
Proof.
  destruct db as [d|].
  - unfold test_database, try_except, bind, modify, lift.
    destruct (db_list_collection_names d) as [names|e]; cbn;
      eexists; (split; [reflexivity|]); reflexivity.
  - eexists. split; reflexivity.
Qed.

(** ** Every sequence of writing calls *)

Lemma coll_ok_succ (next : N) (c : list (gmap string value)) :
  coll_ok next c = true -> coll_ok (N.succ next) c = true.
Proof.
  unfold coll_ok. rewrite !andb_true_iff. intros [Hb Hd].
  split; [now apply ids_below_succ | exact Hd].
Qed.

Lemma event_doc_ok_dump (o : N) (ev : Event.t) :
  event_doc_ok (<["_id" := VOid o]> (Event.model_dump ev)) = true.
Proof. destruct ev as [t [de|] di l [c|]]; reflexivity. Qed.

Lemma create_event_keeps_ok (d : Database) (ev : Event.t) :
  store_ok d -> store_ok (insert_one d "event" (Event.model_dump ev)).
Proof.
  intros (Hr & Hu & He & Hrs & Hes). unfold store_ok.
  rewrite (collection_insert_one_ne d "event" "rsvp") by (intros H; discriminate H).
  rewrite collection_insert_one. cbn [db_next_oid insert_one].
  split; [now apply coll_ok_succ|].
  split; [exact Hu|].
  split; [now apply coll_ok_insert|].
  split; [exact Hrs|].
  rewrite forallb_app, Hes. cbn [forallb andb]. now rewrite event_doc_ok_dump.
Qed.

Lemma set_rsvp_keeps_ok (d : Database) (e : string) (b : RsvpRequest.t) :
  store_ok d ->
  exists d', snd (set_rsvp str_exn e b (Some d)) = Some d' /\ store_ok d'.
Proof.
  intros (Hr & Hu & He & Hrs & Hes).
  destruct (set_rsvp_writes d e b Hr)
    as (i & d' & doc & Hs & Hr' & _ & _ & Hst & _ & Hcase).
  exists d'. rewrite Hs. clear Hs. split; [reflexivity|].
  pose proof (stored_as_ok _ _ Hst) as Hdoc. clear Hst.
  destruct (Coll.find_one (rsvp_key e (RsvpRequest.user_id b)) (collection d "rsvp"))
    as [ex|] eqn:Hf.
  - destruct Hcase as (l1 & l2 & Hc & Hc' & Hd & Hex & Hd').
    unfold store_ok. rewrite Hc'.
    assert (Hev : collection d' "event" = collection d "event").
    { rewrite Hd'. unfold collection, set_collection. cbn [db_collections].
      rewrite lookup_insert_ne by (intros H; discriminate H). reflexivity. }
    assert (Hnext : db_next_oid d' = db_next_oid d) by (rewrite Hd'; reflexivity).
    rewrite Hev, Hnext, <- Hc'. rewrite Hnext in Hr'.
    split; [exact Hr'|]. rewrite Hc'.
    split.
    { rewrite Hd. apply unique_rsvp_update; [exact Hex|]. rewrite <- Hc. exact Hu. }
    split; [exact He|].
    split; [|exact Hes].
    rewrite Hc in Hrs. rewrite forallb_app in Hrs |- *.
    apply andb_true_iff in Hrs as [H1 H2]. cbn [forallb] in H2 |- *.
    apply andb_true_iff in H2 as [_ H2]. now rewrite H1, Hdoc, H2.
  - destruct Hcase as (Hc' & Hd & Hd').
    unfold store_ok. rewrite Hc'.
    assert (Hev : collection d' "event" = collection d "event").
    { rewrite Hd'. apply collection_insert_one_ne. intros H; discriminate H. }
    assert (Hnext : db_next_oid d' = N.succ (db_next_oid d)) by (rewrite Hd'; reflexivity).
    rewrite Hev, Hnext, <- Hc'. rewrite Hnext in Hr'.
    split; [exact Hr'|]. rewrite Hc'.
    split; [rewrite Hd; now apply unique_rsvp_insert|].
    split; [now apply coll_ok_succ|].
    split; [|exact Hes].
    rewrite forallb_app, Hrs. cbn [forallb andb]. now rewrite Hdoc.
Qed.

Lemma serve_keeps_ok (c : call) (d : Database) :
  store_ok d ->
  exists d', serve str_exn c (Some d) = Some d' /\ store_ok d'.
Proof.
  intros Hok. destruct c as [ev|e b]; cbn [serve].
  - rewrite create_event_spec. cbn [snd]. eexists. split; [reflexivity|].
    now apply create_event_keeps_ok.
  - now apply set_rsvp_keeps_ok.
Qed.

Lemma get_my_rsvp_ok_store (d : Database) (e u : string) :
  forallb rsvp_doc_ok (collection d "rsvp") = true ->
  (exists r, fst (get_my_rsvp str_exn e u (Some d)) = Return r) \/
  fst (get_my_rsvp str_exn e u (Some d)) = Raise (HTTPException 404 "No RSVP yet").
Proof.
  intros Hall.
  destruct (Coll.find_one (rsvp_key e u) (collection d "rsvp")) as [doc|] eqn:Hf.
  - left. rewrite forallb_forall in Hall.
    rewrite (get_my_rsvp_found_ok str_exn d e u doc Hf
               (Hall doc (proj1 (find_one_some _ _ _ Hf)))).
    eexists. reflexivity.
  - right. rewrite (get_my_rsvp_not_found str_exn d e u Hf). reflexivity.
Qed.

(** X16. The store stays in order under every sequence of [create_event]
    and [set_rsvp] calls: distinct identifiers, at most one RSVP per pair,
    documents of the shapes the handlers read.  In such a store
    [get_my_rsvp] answers a document or 404, never a 500. *)
Theorem serve_all_keeps_ok (calls : list call) (d : Database) :
  store_ok d ->
  exists d',
    serve_all str_exn calls (Some d) = Some d' /\
    store_ok d' /\
    forall e u : string,
      (exists r, fst (get_my_rsvp str_exn e u (Some d')) = Return r) \/
      fst (get_my_rsvp str_exn e u (Some d')) = Raise (HTTPException 404 "No RSVP yet").
Proof.
  revert d. induction calls as [|c calls IH]; intros d Hok.
  - exists d. split; [reflexivity|]. split; [exact Hok|].
    intros e u. apply get_my_rsvp_ok_store. apply Hok.
  - destruct (serve_keeps_ok c d Hok) as (d1 & Hd1 & Hok1).
    cbn [serve_all]. rewrite Hd1. now apply IH.
Qed.

End Further.

(** ** The further properties on the sample stores *)

Lemma set_rsvp_frame_witness :
  "event" <> "rsvp" /\
  match snd (set_rsvp exn_text "e1" going_u1 (Some store_one_event)) with
  | Some d' =>
      collection d' "event" = collection store_one_event "event" /\
      length (collection store_one_event "rsvp") <= length (collection d' "rsvp") /\
      length (collection d' "rsvp") <= S (length (collection store_one_event "rsvp"))
  | None => False
  end.
Proof.
  assert (H1 : "event" <> "rsvp") by (intros H; discriminate H).
  exact (conj H1 (set_rsvp_frame exn_text store_one_event "e1" going_u1 "event" H1)).
Defined.

Lemma set_rsvp_then_get_my_rsvp_witness :
  coll_ok (db_next_oid store_one_rsvp) (collection store_one_rsvp "rsvp") = true /\
  match set_rsvp exn_text "e1" not_going_u1 (Some store_one_rsvp) with
  | (Return r, Some d') =>
      get_my_rsvp exn_text "e1" (RsvpRequest.user_id not_going_u1) (Some d') =
      (Return r, Some d')
  | _ => False
  end.
Proof.
  assert (H1 : coll_ok (db_next_oid store_one_rsvp) (collection store_one_rsvp "rsvp")
               = true) by reflexivity.
  exact (conj H1 (set_rsvp_then_get_my_rsvp exn_text store_one_rsvp "e1" not_going_u1 H1)).
Defined.

Lemma set_rsvp_other_pairs_witness :
  coll_ok (db_next_oid store_one_rsvp) (collection store_one_rsvp "rsvp") = true /\
  ("e1" <> "e1" \/ "u1" <> RsvpRequest.user_id going_u2) /\
  fst (get_my_rsvp exn_text "e1" "u1"
         (snd (set_rsvp exn_text "e1" going_u2 (Some store_one_rsvp)))) =
  fst (get_my_rsvp exn_text "e1" "u1" (Some store_one_rsvp)).
Proof.
  assert (H1 : coll_ok (db_next_oid store_one_rsvp) (collection store_one_rsvp "rsvp")
               = true) by reflexivity.
  assert (H2 : "e1" <> "e1" \/ "u1" <> RsvpRequest.user_id going_u2)
    by (right; intros H; discriminate H).
  exact (conj H1 (conj H2
           (set_rsvp_other_pairs exn_text store_one_rsvp "e1" going_u2 "e1" "u1" H1 H2))).
Defined.

Lemma set_rsvp_idempotent_witness :
  coll_ok (db_next_oid store_one_rsvp) (collection store_one_rsvp "rsvp") = true /\
  match set_rsvp exn_text "e1" not_going_u1 (Some store_one_rsvp) with
  | (Return r, Some d') =>
      set_rsvp exn_text "e1" not_going_u1 (Some d') = (Return r, Some d')
  | _ => False
  end.
Proof.
  assert (H1 : coll_ok (db_next_oid store_one_rsvp) (collection store_one_rsvp "rsvp")
               = true) by reflexivity.
  exact (conj H1 (set_rsvp_idempotent exn_text store_one_rsvp "e1" not_going_u1 H1)).
Defined.


Lemma set_rsvp_other_events_witness :
  coll_ok (db_next_oid store_one_rsvp) (collection store_one_rsvp "rsvp") = true /\
  "e1" <> "e2" /\
  fst (get_counts exn_text "e1"
         (snd (set_rsvp exn_text "e2" going_u1 (Some store_one_rsvp)))) =
  fst (get_counts exn_text "e1" (Some store_one_rsvp)).
Proof.
  assert (H1 : coll_ok (db_next_oid store_one_rsvp) (collection store_one_rsvp "rsvp")
               = true) by reflexivity.
  assert (H2 : "e1" <> "e2") by (intros H; discriminate H).
  exact (conj H1 (conj H2
           (set_rsvp_other_events exn_text store_one_rsvp "e2" going_u1 "e1" H1 H2))).
Defined.

Lemma create_event_fresh_id_witness :
  ids_below (db_next_oid store_one_event) (collection store_one_event "event") = true /\
  (db_next_oid store_one_event < 2 ^ 96)%N /\
  exists i : string,
    fst (create_event exn_text launch (Some store_one_event)) =
    Return (<["id" := VStr i]> ∅) /\
    Forall (fun x : gmap string value => str (get x "_id") <> i)
           (collection store_one_event "event").
Proof.
  assert (H1 : ids_below (db_next_oid store_one_event)
                         (collection store_one_event "event") = true) by reflexivity.
  assert (H2 : (db_next_oid store_one_event < 2 ^ 96)%N) by reflexivity.
  exact (conj H1 (conj H2 (create_event_fresh_id exn_text store_one_event launch H1 H2))).
Defined.

Lemma create_event_keeps_events_witness :
  fst (get_event exn_text "000000000000000000000000" (Some store_one_event)) =
  Return (EventOut.mk "000000000000000000000000" "Launch" None "2025-01-01T10:00:00"
                      "Hall" (Some "http://img")) /\
  fst (get_event exn_text "000000000000000000000000"
         (snd (create_event exn_text launch (Some store_one_event)))) =
  Return (EventOut.mk "000000000000000000000000" "Launch" None "2025-01-01T10:00:00"
                      "Hall" (Some "http://img")).
Proof.
  assert (H1 : fst (get_event exn_text "000000000000000000000000" (Some store_one_event)) =
               Return (EventOut.mk "000000000000000000000000" "Launch" None
                                   "2025-01-01T10:00:00" "Hall" (Some "http://img")))
    by (vm_compute; reflexivity).
  exact (conj H1
           (create_event_keeps_events exn_text store_one_event launch
              "000000000000000000000000" _ H1)).
Defined.

Lemma get_event_malformed_400_witness :
  ObjectId "000000000000000000000000" = Return 0%N /\
  Coll.find_one (<["_id" := VOid 0]> ∅) (collection store_untitled "event") =
  Some untitled_doc /\
  event_doc_ok untitled_doc = false /\
  get_event exn_text "000000000000000000000000" (Some store_untitled) =
  (Raise (HTTPException 400 (exn_text (ValidationError "EventOut"))), Some store_untitled).
Proof.
  assert (H1 : ObjectId "000000000000000000000000" = Return 0%N)
    by (vm_compute; reflexivity).
  assert (H2 : Coll.find_one (<["_id" := VOid 0]> ∅) (collection store_untitled "event") =
               Some untitled_doc) by (vm_compute; reflexivity).
  assert (H3 : event_doc_ok untitled_doc = false) by reflexivity.
  exact (conj H1 (conj H2 (conj H3
           (get_event_malformed_400 exn_text store_untitled
              "000000000000000000000000" 0 untitled_doc H1 H2 H3)))).
Defined.

Lemma Rsvp_stricter_than_RsvpRequest_witness :
  Rsvp.validate rsvp_json = Return (Rsvp.mk "e1" "u1" "not_going" None) /\
  (Rsvp.status (Rsvp.mk "e1" "u1" "not_going" None) = "going" \/
   Rsvp.status (Rsvp.mk "e1" "u1" "not_going" None) = "not_going") /\
  RsvpRequest.validate rsvp_json =
  Return (RsvpRequest.mk (Rsvp.status (Rsvp.mk "e1" "u1" "not_going" None))
                         (Rsvp.user_id (Rsvp.mk "e1" "u1" "not_going" None))
                         (Rsvp.user_name (Rsvp.mk "e1" "u1" "not_going" None))).
Proof.
  assert (H1 : Rsvp.validate rsvp_json = Return (Rsvp.mk "e1" "u1" "not_going" None))
    by (vm_compute; reflexivity).
  exact (conj H1 (Rsvp_stricter_than_RsvpRequest rsvp_json _ H1)).
Defined.

Lemma store_ok_empty : store_ok store_empty.
Proof.
  unfold store_ok.
  split; [reflexivity|]. split; [exact unique_rsvp_nil|].
  split; [reflexivity|]. split; reflexivity.
Defined.

Lemma serve_all_keeps_ok_witness :
  store_ok store_empty /\
  exists d',
    serve_all exn_text sample_calls (Some store_empty) = Some d' /\
    store_ok d' /\
    forall e u : string,
      (exists r, fst (get_my_rsvp exn_text e u (Some d')) = Return r) \/
      fst (get_my_rsvp exn_text e u (Some d')) = Raise (HTTPException 404 "No RSVP yet").
Proof.
  exact (conj store_ok_empty
           (serve_all_keeps_ok exn_text sample_calls store_empty store_ok_empty)).
Defined.
